(** * Wallet balance and airdrop service: the validator, the retrying
    balance reader, the airdrop route and the natural-language balance route.

    Sources embedded here:
    - [src/be/index.js]: [lamportsToSol], [getBalanceWithRetry] and the
      routes [GET /api/wallet/balance/:publicKey] and
      [POST /api/wallet/airdrop];
    - the balance handler module that follows the chat widget in
      [src/fe/src/components/WalletChat.jsx]: [isPotentiallySolanaAddress],
      [getBalanceWithRetry] and the handler of [POST /api/natural/balance]
      that [handleBalanceQuery] registers;
    - the chat widget of the same file: [handleSubmit] with the reply it
      computes, and the [onChange] handler of the input.

    JavaScript numbers are IEEE-754 binary64 values: they are the kernel's
    primitive [float].  JavaScript strings are modelled by [string], one
    character per code unit; the regular-expression matcher itself works on
    lists of code units of any size. *)

From Stdlib Require Import Bool Arith ZArith NArith Lia List String Ascii.
From Stdlib Require Import Floats.PrimFloat.
Import ListNotations.

Set Implicit Arguments.
Set Warnings "-register-all,-notation-for-abbreviation".

Open Scope string_scope.
Open Scope list_scope.
Open Scope nat_scope.

(** ** Regular expressions, as ECMAScript runs them

    The fragment needed by the validator's pattern: the two line
    assertions, a character class made of ranges, a bounded greedy
    quantifier and concatenation.  A matcher takes the index reached so far
    and a continuation, as in the language specification's [RepeatMatcher]
    and friends. *)
Module RegExp.

Inductive ClassRange : Type :=
| Range (lo hi : N).

Inductive Pattern : Type :=
| AssertStart
| AssertEnd
| CharClass (ranges : list ClassRange)
| Quantified (atom : Pattern) (min max : nat)
| Seq (left right : Pattern).

Definition Continuation : Type := nat -> bool.
Definition Matcher : Type := nat -> Continuation -> bool.

Definition in_range (unit : N) (r : ClassRange) : bool :=
  match r with
  | Range lo hi => (lo <=? unit)%N && (unit <=? hi)%N
  end.

Definition class_matches (ranges : list ClassRange) (unit : N) : bool :=
  existsb (in_range unit) ranges.

(** [RepeatMatcher m min max x c]: when [max] is zero, continue; otherwise
    run the atom with a continuation that repeats (refusing an empty
    iteration once [min] is zero); when [min] is zero the quantifier is
    greedy, it tries one more iteration before it tries to stop. *)
Fixpoint RepeatMatcher (m : Matcher) (min max : nat) : Matcher :=
  fun x c =>
    match max with
    | O => c x
    | S max2 =>
        let d : Continuation :=
          fun y =>
            if (min =? 0) && (y =? x) then false
            else RepeatMatcher m (min - 1) max2 y c in
        if negb (min =? 0) then m x d
        else m x d || c x
    end.

Fixpoint compile (input : list N) (p : Pattern) : Matcher :=
  match p with
  | AssertStart => fun x c => if x =? 0 then c x else false
  | AssertEnd => fun x c => if x =? List.length input then c x else false
  | CharClass ranges =>
      fun x c =>
        match nth_error input x with
        | Some unit => if class_matches ranges unit then c (S x) else false
        | None => false
        end
  | Quantified atom min max => RepeatMatcher (compile input atom) min max
  | Seq p1 p2 => fun x c => compile input p1 x (fun y => compile input p2 y c)
  end.

(** [RegExpBuiltinExec] for a pattern with neither the global nor the
    sticky flag: try every start index from [lastIndex] up to the length
    of the input.  [tries] counts the start indices left. *)
Fixpoint exec_from (m : Matcher) (tries lastIndex : nat) : bool :=
  match tries with
  | O => false
  | S tries' => m lastIndex (fun _ => true) || exec_from m tries' (S lastIndex)
  end.

Definition test (p : Pattern) (input : list N) : bool :=
  exec_from (compile input p) (S (List.length input)) 0.

End RegExp.

(** ** The Address Validator *)

Definition code_units (s : string) : list N :=
  map N_of_ascii (list_ascii_of_string s).

Definition cu (c : ascii) : N := N_of_ascii c.

(** [/^[1-9A-HJ-NP-Za-km-z]{32,44}$/] *)
Definition address_class : list RegExp.ClassRange :=
  [ RegExp.Range (cu "1") (cu "9"); RegExp.Range (cu "A") (cu "H");
    RegExp.Range (cu "J") (cu "N"); RegExp.Range (cu "P") (cu "Z");
    RegExp.Range (cu "a") (cu "k"); RegExp.Range (cu "m") (cu "z") ].

Definition address_pattern : RegExp.Pattern :=
  RegExp.Seq RegExp.AssertStart
    (RegExp.Seq (RegExp.Quantified (RegExp.CharClass address_class) 32 44)
       RegExp.AssertEnd).

Definition isPotentiallySolanaAddress (str : string) : bool :=
  RegExp.test address_pattern (code_units str).

(** The base-58 alphabet in the words of the specification: the digits and
    letters without [0], [O], [I] and [l]. *)
Definition base58_alphabet : string :=
  "123456789ABCDEFGHJKLMNPQRSTUVWXYZabcdefghijkmnopqrstuvwxyz".

Definition in_base58_alphabet (c : ascii) : bool :=
  existsb (Ascii.eqb c) (list_ascii_of_string base58_alphabet).

Definition all_base58 (s : string) : bool :=
  forallb in_base58_alphabet (list_ascii_of_string s).

(** ** Runs of a character class

    A helper to state what the quantifier over a class accepts. *)

Section ClassRuns.

Variable input : list N.
Variable ranges : list RegExp.ClassRange.

(** [run_of x n]: the [n] code units from index [x] on exist and all are in
    the class. *)
Fixpoint run_of (x n : nat) : bool :=
  match n with
  | O => true
  | S n' =>
      match nth_error input x with
      | Some unit => RegExp.class_matches ranges unit && run_of (S x) n'
      | None => false
      end
  end.

End ClassRuns.

(** ** JavaScript values, errors and the libraries the service calls *)

(** The values a JSON request body or a response carries, and [undefined]
    for a property that is absent. *)
Inductive JsVal : Type :=
| JUndefined
| JNull
| JBool (b : bool)
| JNum (n : float)
| JStr (s : string)
| JArr (items : list JsVal)
| JObj (props : list (string * JsVal)).

(** An [Error] object; [new Error(message)]. *)
Record JsError : Type := new_Error { message : string }.

(** The truth value of a condition: [undefined], [null], [false], [0],
    [-0], [NaN] and the empty string are false, everything else is true. *)
Definition ToBoolean (v : JsVal) : bool :=
  match v with
  | JUndefined | JNull => false
  | JBool b => b
  | JNum n => negb (is_zero n || is_nan n)
  | JStr s => negb (s =? "")%string
  | JArr _ | JObj _ => true
  end.

(** What [connection.confirmTransaction] resolves to: only
    [confirmation.value.err] is read, [null] when the transaction went
    through. *)
Record Confirmation : Type := { value_err : JsVal }.

(** What the structured output parser produces: three string fields. *)
Record ParsedResponse : Type :=
  { action : string; publicKey : string; needsAddress : string }.

(** An HTTP response: [res.json(body)] answers with status 200,
    [res.status(code).json(body)] with [code]. *)
Record Response : Type := { status : Z; body : JsVal }.

Definition res_json (b : JsVal) : Response := {| status := 200; body := b |}.

Definition res_status_json (code : Z) (b : JsVal) : Response :=
  {| status := code; body := b |}.

(** The library functions the two modules import and that are not part of
    the repository: they are parameters of the whole development. *)
Class Libraries : Type := {
  (** ECMAScript: [ToNumber] on strings, arrays and objects, and
      [JSON.stringify]. *)
  ToNumber_other : JsVal -> float;
  JSON_stringify : JsVal -> string;
  (** [@solana/web3.js]: the [PublicKey] class; its constructor throws on
      an input it does not accept. *)
  PublicKey : Type;
  PublicKey_constructor : JsVal -> JsError + PublicKey;
  PublicKey_toString : PublicKey -> string;
  (** [langchain]: the prompt template filled with the query, the
      structured parser and its format instructions. *)
  promptTemplate_format : JsVal -> string;
  parser_parse : string -> JsError + ParsedResponse;
  parser_getFormatInstructions : string
}.

(** Modelled from the spec: the constant [LAMPORTS_PER_SOL] that
    [src/be/index.js] imports from the web3 library; the glossary gives
    10^9 lamports for one unit of currency. *)
Definition LAMPORTS_PER_SOL : float := 1000000000%float.

Section Runtime.

Context {L : Libraries}.

Definition ToNumber (v : JsVal) : float :=
  match v with
  | JUndefined => nan
  | JNull => zero
  | JBool b => if b then one else zero
  | JNum n => n
  | JStr _ | JArr _ | JObj _ => ToNumber_other v
  end.

Definition js_mul (a b : JsVal) : JsVal := JNum (ToNumber a * ToNumber b)%float.
Definition js_sub (a b : JsVal) : JsVal := JNum (ToNumber a - ToNumber b)%float.
Definition js_div (a b : JsVal) : JsVal := JNum (ToNumber a / ToNumber b)%float.

(** *** The call log

    Every call that leaves a handler's body is recorded with its outcome
    ([inl] for a thrown error): the remote ledger, the timers, the console,
    the language model and its repair chain, and also the [PublicKey]
    constructor, the structured parser and the validator, so that what a
    run did not do can be stated. *)
Inductive Event : Type :=
| EvNewPublicKey (value : JsVal) (r : JsError + PublicKey)
| EvGetBalance (address : PublicKey) (commitment : string) (r : JsError + float)
| EvRequestAirdrop (address : PublicKey) (lamports : JsVal) (r : JsError + string)
| EvConfirmTransaction (signature commitment : string) (r : JsError + Confirmation)
| EvSetTimeout (ms : Z)
| EvConsoleError (label : string) (error : JsError)
| EvModelInvoke (prompt : string) (r : JsError + string)
| EvParserParse (text : string) (r : JsError + ParsedResponse)
| EvRetryChain (instructions completion : string) (error : JsError)
    (r : JsError + string)
| EvIsPotentiallySolanaAddress (str : string) (r : bool).

(** A call to the remote ledger. *)
Definition is_rpc (e : Event) : bool :=
  match e with
  | EvGetBalance _ _ _ | EvRequestAirdrop _ _ _ | EvConfirmTransaction _ _ _ => true
  | _ => false
  end.

(** The services outside the process.  Each answer may depend on
    everything that happened before (the log so far), which covers any
    deterministic stub or node. *)
Record Env : Type := {
  connection_getBalance : list Event -> PublicKey -> string -> JsError + float;
  connection_requestAirdrop : list Event -> PublicKey -> JsVal -> JsError + string;
  connection_confirmTransaction :
    list Event -> string -> string -> JsError + Confirmation;
  model_invoke : list Event -> string -> JsError + string;
  retryChain_call : list Event -> string -> string -> JsError -> JsError + string
}.

(** *** Computations: an [async] body

    A computation reads the log so far and gives a value or a thrown
    error, with the events it added. *)
Definition M (A : Type) : Type := list Event -> (JsError + A) * list Event.

Definition ret {A : Type} (a : A) : M A := fun _ => (inr a, []).

Definition throw {A : Type} (e : JsError) : M A := fun _ => (inl e, []).

Definition bind {A B : Type} (m : M A) (k : A -> M B) : M B :=
  fun h =>
    match m h with
    | (inl e, out) => (inl e, out)
    | (inr a, out) =>
        match k a (h ++ out) with
        | (r, out') => (r, out ++ out')
        end
    end.

(** [try { m } catch (error) { handler error }] *)
Definition try_catch {A : Type} (m : M A) (handler : JsError -> M A) : M A :=
  fun h =>
    match m h with
    | (inl e, out) =>
        match handler e (h ++ out) with
        | (r, out') => (r, out ++ out')
        end
    | (inr a, out) => (inr a, out)
    end.

(** A call whose answer comes from outside, logged with the answer. *)
Definition call {A : Type} (answer : list Event -> JsError + A)
    (ev : JsError + A -> Event) : M A :=
  fun h => let r := answer h in (r, [ev r]).

(** A call that cannot fail and returns nothing. *)
Definition emit (ev : Event) : M unit := fun _ => (inr tt, [ev]).

End Runtime.

Declare Scope js_scope.
Delimit Scope js_scope with js.
Notation "x <- m ;; k" := (bind m (fun x => k))
  (at level 61, m at next level, right associativity) : js_scope.
Notation "m ;; k" := (bind m (fun _ => k))
  (at level 61, right associativity) : js_scope.
Open Scope js_scope.

Section Calls.

Context {L : Libraries}.
Variable env : Env.

Definition new_PublicKey (value : JsVal) : M PublicKey :=
  call (fun _ => PublicKey_constructor value) (EvNewPublicKey value).

Definition getBalance (address : PublicKey) (commitment : string) : M float :=
  call (fun h => connection_getBalance env h address commitment)
       (EvGetBalance address commitment).

Definition requestAirdrop (address : PublicKey) (lamports : JsVal) : M string :=
  call (fun h => connection_requestAirdrop env h address lamports)
       (EvRequestAirdrop address lamports).

Definition confirmTransaction (signature commitment : string) : M Confirmation :=
  call (fun h => connection_confirmTransaction env h signature commitment)
       (EvConfirmTransaction signature commitment).

(** [await new Promise(resolve => setTimeout(resolve, ms))] *)
Definition setTimeout (ms : Z) : M unit := emit (EvSetTimeout ms).

Definition console_error (label : string) (error : JsError) : M unit :=
  emit (EvConsoleError label error).

End Calls.

(** ** [src/be/index.js] *)
Module Index.

Section Code.

Context {L : Libraries}.
Variable env : Env.

Definition lamportsToSol (lamports : JsVal) : JsVal :=
  js_div lamports (JNum LAMPORTS_PER_SOL).

(** The body of the [for] loop of [getBalanceWithRetry], entered with the
    counter at [i]; [remaining] is [maxRetries - i], the number of
    iterations the loop test [i < maxRetries] still lets through.  When
    none is left the function falls off its end and returns [undefined]. *)
Fixpoint getBalanceWithRetry_loop (remaining i : nat) (publicKey : PublicKey)
    (maxRetries : nat) : M JsVal :=
  match remaining with
  | O => ret JUndefined
  | S remaining' =>
      try_catch
        (balance <- getBalance env publicKey "confirmed" ;;
         ret (JNum balance))
        (fun error =>
           if i =? maxRetries - 1 then throw error
           else
             setTimeout 1000 ;;
             getBalanceWithRetry_loop remaining' (S i) publicKey maxRetries)
  end.

Definition getBalanceWithRetry (publicKey : PublicKey) (maxRetries : nat)
  : M JsVal :=
  getBalanceWithRetry_loop maxRetries 0 publicKey maxRetries.

(** The default value of the parameter [maxRetries]. *)
Definition maxRetries_default : nat := 5.

(** [app.get('/api/wallet/balance/:publicKey', ...)] *)
Definition get_api_wallet_balance (req_params_publicKey : string) : M Response :=
  try_catch
    (publicKey <- new_PublicKey (JStr req_params_publicKey) ;;
     balance <- getBalanceWithRetry publicKey maxRetries_default ;;
     let response :=
       JObj [ ("publicKey", JStr (PublicKey_toString publicKey));
              ("balanceInLamports", balance);
              ("balanceInSOL", lamportsToSol balance);
              ("message", JStr "Balance fetched successfully") ] in
     ret (res_json response))
    (fun error =>
       console_error "Balance fetch error:" error ;;
       ret (res_status_json 500
              (JObj [ ("error", JStr "Failed to fetch balance");
                      ("details", JStr (message error)) ]))).

(** [app.post('/api/wallet/airdrop', ...)]; the two arguments are the
    properties [publicKey] and [amount] of [req.body]. *)
Definition post_api_wallet_airdrop (req_body_publicKey req_body_amount : JsVal)
  : M Response :=
  try_catch
    (let publicKey := req_body_publicKey in
     let amount := req_body_amount in
     if negb (ToBoolean publicKey) || negb (ToBoolean amount) then
       ret (res_status_json 400
              (JObj [ ("error", JStr "Missing required parameters");
                      ("details", JStr "Both publicKey and amount are required") ]))
     else
       address <- new_PublicKey publicKey ;;
       let lamports := js_mul amount (JNum LAMPORTS_PER_SOL) in
       initialBalance <- getBalanceWithRetry address maxRetries_default ;;
       signature <- requestAirdrop env address lamports ;;
       try_catch
         (confirmation <- confirmTransaction env signature "confirmed" ;;
          if ToBoolean (value_err confirmation) then
            throw (new_Error (String.append "Transaction failed: "
                                (JSON_stringify (value_err confirmation))))
          else ret tt)
         (fun error =>
            throw (new_Error (String.append "Transaction confirmation failed: "
                                (message error)))) ;;
       setTimeout 2000 ;;
       newBalance <- getBalanceWithRetry address maxRetries_default ;;
       let balanceChange := js_sub newBalance initialBalance in
       let response :=
         JObj [ ("publicKey", JStr (PublicKey_toString address));
                ("signature", JStr signature);
                ("requestedAmount", amount);
                ("initialBalanceSOL", lamportsToSol initialBalance);
                ("newBalanceSOL", lamportsToSol newBalance);
                ("actualChangeSOL", lamportsToSol balanceChange);
                ("message", JStr "Airdrop successful");
                ("status", JStr "confirmed") ] in
       ret (res_json response))
    (fun error =>
       console_error "Airdrop error:" error ;;
       ret (res_status_json 500
              (JObj [ ("error", JStr "Airdrop failed");
                      ("details", JStr (message error)) ]))).

End Code.

End Index.

(** ** The balance handler module *)
Module BalanceHandler.

Section Code.

Context {L : Libraries}.
Variable env : Env.

(** The validator, called from the handler: the call and its answer are
    logged. *)
Definition call_isPotentiallySolanaAddress (str : string) : M bool :=
  fun _ =>
    let r := isPotentiallySolanaAddress str in
    (inr r, [EvIsPotentiallySolanaAddress str r]).

(** Same text as the function of the same name in [src/be/index.js]. *)
Fixpoint getBalanceWithRetry_loop (remaining i : nat) (publicKey : PublicKey)
    (maxRetries : nat) : M JsVal :=
  match remaining with
  | O => ret JUndefined
  | S remaining' =>
      try_catch
        (balance <- getBalance env publicKey "confirmed" ;;
         ret (JNum balance))
        (fun error =>
           if i =? maxRetries - 1 then throw error
           else
             setTimeout 1000 ;;
             getBalanceWithRetry_loop remaining' (S i) publicKey maxRetries)
  end.

Definition getBalanceWithRetry (publicKey : PublicKey) (maxRetries : nat)
  : M JsVal :=
  getBalanceWithRetry_loop maxRetries 0 publicKey maxRetries.

Definition maxRetries_default : nat := 5.

Definition model_invoke_content (promptValue : string) : M string :=
  call (fun h => model_invoke env h promptValue) (EvModelInvoke promptValue).

Definition call_parser_parse (text : string) : M ParsedResponse :=
  call (fun _ => parser_parse text) (EvParserParse text).

(** Modelled from the spec: [fixingParser.parse], the method of the
    library's output-fixing parser built by [OutputFixingParser.fromLLM
    (model, parser)]; its code is not in the repository.  Section 4.2:
    the raw response is parsed against the schema; on a parse failure a
    secondary fixing pass resubmits the malformed text with the schema
    for self-correction, and the outcome is parsed again; this is a
    single corrective retry. *)
Definition fixingParser_parse (completion : string) : M ParsedResponse :=
  try_catch
    (call_parser_parse completion)
    (fun e =>
       newCompletion <-
         call (fun h => retryChain_call env h parser_getFormatInstructions
                          completion e)
              (EvRetryChain parser_getFormatInstructions completion e) ;;
       call_parser_parse newCompletion).

(** The handler that [handleBalanceQuery(app)] registers with
    [app.post('/api/natural/balance', ...)]; the argument is the property
    [query] of [req.body]. *)
Definition handleBalanceQuery (req_body_query : JsVal) : M Response :=
  try_catch
    (let query := req_body_query in
     if negb (ToBoolean query) then
       ret (res_status_json 400
              (JObj [ ("error", JStr "Missing query parameter");
                      ("message", JStr "Please provide a natural language query") ]))
     else
       let promptValue := promptTemplate_format query in
       llmResponseText <- model_invoke_content promptValue ;;
       parsedResponse <- fixingParser_parse llmResponseText ;;
       if (needsAddress parsedResponse =? "true")%string
          || (publicKey parsedResponse =? "none")%string then
         ret (res_json
                (JObj [ ("status", JStr "needs_address");
                        ("message",
                         JStr "Please provide a Solana wallet address to check the balance") ]))
       else
         looksValid <- call_isPotentiallySolanaAddress (publicKey parsedResponse) ;;
         if negb looksValid then
           ret (res_status_json 400
                  (JObj [ ("error", JStr "Invalid address format");
                          ("message",
                           JStr "The provided address does not appear to be a valid Solana address") ]))
         else
           try_catch
             (publicKey <- new_PublicKey (JStr (publicKey parsedResponse)) ;;
              balance <- getBalanceWithRetry publicKey maxRetries_default ;;
              let response :=
                JObj [ ("status", JStr "success");
                       ("publicKey", JStr (PublicKey_toString publicKey));
                       ("balanceInLamports", balance);
                       ("balanceInSOL", js_div balance (JNum 1000000000%float));
                       ("message", JStr "Balance fetched successfully") ] in
              ret (res_json response))
             (fun error =>
                ret (res_status_json 400
                       (JObj [ ("error", JStr "Balance fetch failed");
                               ("message", JStr (message error)) ]))))
    (fun error =>
       console_error "Natural language processing error:" error ;;
       ret (res_status_json 500
              (JObj [ ("error", JStr "Processing failed");
                      ("message", JStr (message error)) ]))).

End Code.

End BalanceHandler.

(** ** The shape of a log *)

Section RetryShapes.

Context {L : Libraries}.
Variable env : Env.
Variable publicKey : PublicKey.

(** What one failed attempt below the budget leaves in the log: the call
    that threw, then the wait of one second. *)
Definition failed_attempt (e : JsError) : list Event :=
  [EvGetBalance publicKey "confirmed" (inl e); EvSetTimeout 1000].

Definition failed_attempts (es : list JsError) : list Event :=
  flat_map failed_attempt es.

(** The stub throws [es], in this order, on the attempts made from the log
    [h] on. *)
Fixpoint attempts_fail (h : list Event) (es : list JsError) : Prop :=
  match es with
  | [] => True
  | e :: es' =>
      connection_getBalance env h publicKey "confirmed" = inl e
      /\ attempts_fail (h ++ failed_attempt e) es'
  end.

(** What the function gives back for the answer of its last attempt. *)
Definition outcome (r : JsError + float) : JsError + JsVal :=
  match r with
  | inl e => inl e
  | inr balance => inr (JNum balance)
  end.

(** The events that are waits, with their length in milliseconds. *)
Definition delays (evs : list Event) : list Z :=
  flat_map (fun ev => match ev with EvSetTimeout ms => [ms] | _ => [] end) evs.

(** The events that are balance reads. *)
Definition balance_reads (evs : list Event) : list Event :=
  filter (fun ev => match ev with EvGetBalance _ _ _ => true | _ => false end) evs.

End RetryShapes.

(** ** What the routes answer, and what a log shows *)

Definition answer_missing_parameters : Response :=
  res_status_json 400
    (JObj [ ("error", JStr "Missing required parameters");
            ("details", JStr "Both publicKey and amount are required") ]).

Definition answer_airdrop_failed (details : string) : Response :=
  res_status_json 500
    (JObj [ ("error", JStr "Airdrop failed"); ("details", JStr details) ]).

Definition answer_fetch_failed (details : string) : Response :=
  res_status_json 500
    (JObj [ ("error", JStr "Failed to fetch balance"); ("details", JStr details) ]).

Definition answer_needs_address : Response :=
  res_json
    (JObj [ ("status", JStr "needs_address");
            ("message",
             JStr "Please provide a Solana wallet address to check the balance") ]).


Definition answer_processing_failed (msg : string) : Response :=
  res_status_json 500
    (JObj [ ("error", JStr "Processing failed"); ("message", JStr msg) ]).

Section LogReading.

Context {L : Libraries}.

(** A call of the validator. *)
Definition is_validation (ev : Event) : bool :=
  match ev with
  | EvIsPotentiallySolanaAddress _ _ => true
  | _ => false
  end.

(** A call of the validator that accepted its argument. *)
Definition accepts (ev : Event) : bool :=
  match ev with
  | EvIsPotentiallySolanaAddress _ true => true
  | _ => false
  end.

(** The calls of the repair chain. *)
Definition repairs (evs : list Event) : list Event :=
  filter (fun ev => match ev with EvRetryChain _ _ _ _ => true | _ => false end) evs.

(** Reading a log from its start: every call to the remote ledger comes
    after a call of the validator that accepted. *)
Fixpoint validated_scan (validated : bool) (evs : list Event) : bool :=
  match evs with
  | [] => true
  | ev :: rest =>
      (if is_rpc ev then validated else true)
      && validated_scan (validated || accepts ev) rest
  end.

Definition validated_before_rpc (evs : list Event) : bool :=
  validated_scan false evs.

End LogReading.

(** ** Stubs

    A concrete instance of the libraries and scripted services, on which
    the handlers run by computation. *)
Module Demo.

Definition invalid_key : JsError := new_Error "Invalid public key input".

(** The address made of thirty-two [1]. *)
Definition address : string := "11111111111111111111111111111111".

(** A toy structured parser: four texts it understands, an error on
    anything else. *)
Definition parse (text : string) : JsError + ParsedResponse :=
  if (text =? "ask")%string then
    inr {| action := "request_address"; publicKey := "none"; needsAddress := "true" |}
  else if (text =? "none")%string then
    inr {| action := "get_balance"; publicKey := "none"; needsAddress := "false" |}
  else if (text =? "short")%string then
    inr {| action := "get_balance"; publicKey := "abc"; needsAddress := "false" |}
  else if (text =? "found")%string then
    inr {| action := "get_balance"; publicKey := address; needsAddress := "false" |}
  else inl (new_Error "Failed to parse").

(** Keys are kept as their text; the constructor takes the strings the
    validator accepts and throws on every other value. *)
Definition libs : Libraries := {|
  ToNumber_other := fun _ => nan;
  JSON_stringify := fun _ => "{InstructionError}";
  PublicKey := string;
  PublicKey_constructor :=
    fun value =>
      match value with
      | JStr s => if isPotentiallySolanaAddress s then inr s else inl invalid_key
      | _ => inl invalid_key
      end;
  PublicKey_toString := fun s => s;
  promptTemplate_format := fun _ => "prompt";
  parser_parse := parse;
  parser_getFormatInstructions := "schema"
|}.

#[local] Existing Instance libs.

Record Script : Type := {
  balance_answers : list (JsError + float);
  airdrop_answer : JsError + string;
  confirm_answer : JsError + Confirmation;
  model_answer : JsError + string;
  repair_answer : JsError + string
}.

Definition fetch_failed : JsError := new_Error "fetch failed".

(** The [n]-th balance read gets the [n]-th scripted answer, and throws
    once the script is used up. *)
Definition stub (s : Script) : Env := {|
  connection_getBalance :=
    fun h _ _ => nth (List.length (balance_reads h)) (balance_answers s) (inl fetch_failed);
  connection_requestAirdrop := fun _ _ _ => airdrop_answer s;
  connection_confirmTransaction := fun _ _ _ => confirm_answer s;
  model_invoke := fun _ _ => model_answer s;
  retryChain_call := fun _ _ _ _ => repair_answer s
|}.

Definition script (balances : list (JsError + float)) (err : JsVal)
    (completion : string) : Script := {|
  balance_answers := balances;
  airdrop_answer := inr "signature";
  confirm_answer := inr {| value_err := err |};
  model_answer := inr completion;
  repair_answer := inr completion
|}.

End Demo.

(** ** Scripted nodes and models *)

Section Runs.

#[local] Existing Instance Demo.libs.

(** A node whose balance reads all fail. *)
Definition dead_node : Env := Demo.stub (Demo.script [] JNull "ask").

(** A node whose balance reads fail four times, then give 7 lamports. *)
Definition flaky_node : Env :=
  Demo.stub
    (Demo.script
       [ inl (new_Error "blip 1"); inl (new_Error "blip 2");
         inl (new_Error "blip 3"); inl (new_Error "blip 4"); inr 7%float ]
       JNull "ask").

(** A node that credits one unit, and a model that finds [Demo.address]
    in the query. *)
Definition healthy_node : Env :=
  Demo.stub (Demo.script [inr 0%float; inr 1000000000%float] JNull "found").

(** A node whose confirmation reports a transaction-level error. *)
Definition instruction_error : JsVal := JObj [("InstructionError", JNull)].

Definition failing_transaction_node : Env :=
  Demo.stub (Demo.script [inr 0%float] instruction_error "ask").

(** Models whose answer asks for an address, names no address while
    saying none is needed, names a short address, or does not parse. *)
Definition asking_model : Env := Demo.stub (Demo.script [] JNull "ask").
Definition none_model : Env := Demo.stub (Demo.script [] JNull "none").
Definition garbled_model : Env := Demo.stub (Demo.script [] JNull "garbage").

End Runs.


(** ** More ways to read a log *)

Section MoreLogReading.

Context {L : Libraries}.

(** The submissions to the faucet. *)
Definition airdrop_requests (evs : list Event) : list Event :=
  filter (fun ev => match ev with EvRequestAirdrop _ _ _ => true | _ => false end) evs.

(** The waits for a confirmation. *)
Definition confirmations (evs : list Event) : list Event :=
  filter (fun ev => match ev with EvConfirmTransaction _ _ _ => true | _ => false end)
         evs.

(** The reports to the console. *)
Definition console_reports (evs : list Event) : list Event :=
  filter (fun ev => match ev with EvConsoleError _ _ => true | _ => false end) evs.

End MoreLogReading.

Definition answer_missing_query : Response :=
  res_status_json 400
    (JObj [ ("error", JStr "Missing query parameter");
            ("message", JStr "Please provide a natural language query") ]).

Definition answer_balance_fetch_failed (msg : string) : Response :=
  res_status_json 400
    (JObj [ ("error", JStr "Balance fetch failed"); ("message", JStr msg) ]).

(** ** The chat widget: [WalletChat] in
    [src/fe/src/components/WalletChat.jsx] *)
Module WalletChat.

(** What the widget takes from the browser and is not in the repository. *)
Class Browser : Type := {
  (** [new Intl.NumberFormat('en-US', { minimumFractionDigits: 2,
      maximumFractionDigits: 9 }).format(x)] *)
  NumberFormat_format : JsVal -> string;
  (** ECMAScript [ToString] on numbers, arrays and objects. *)
  ToString_other : JsVal -> string
}.

(** One entry of the state [messages]: [{ type, content }]. *)
Record Message : Type := { type : string; content : string }.

(** The three [useState] cells of the component. *)
Record State : Type := {
  messages : list Message;
  inputValue : string;
  isLoading : bool
}.

Definition initial_state : State := {|
  messages := [ {| type := "bot"; content := "Hello! I can help you today?'" |} ];
  inputValue := "";
  isLoading := false
|}.

(** The code units that [String.prototype.trim] removes: white space and
    line terminators. *)
Definition is_WhiteSpace (u : N) : bool :=
  existsb (N.eqb u)
    [9; 10; 11; 12; 13; 32; 160; 5760; 8232; 8233; 8239; 8287; 12288; 65279]%N
  || ((8192 <=? u) && (u <=? 8202))%N.

Fixpoint trimStart_units (l : list ascii) : list ascii :=
  match l with
  | [] => []
  | c :: rest => if is_WhiteSpace (N_of_ascii c) then trimStart_units rest else l
  end.

(** [s.trim()] *)
Definition trim (s : string) : string :=
  string_of_list_ascii
    (rev (trimStart_units (rev (trimStart_units (list_ascii_of_string s))))).

(** [x === 'text'] for a string literal. *)
Definition strict_equals_string (x : JsVal) (text : string) : bool :=
  match x with
  | JStr s => (s =? text)%string
  | _ => false
  end.

(** The value of an own property of an object read from JSON, [undefined]
    when there is none; of two entries with one key the later one
    stands. *)
Definition own_property (props : list (string * JsVal)) (key : string) : JsVal :=
  fold_left (fun found p => if (fst p =? key)%string then snd p else found)
            props JUndefined.

Definition TypeError : JsError := new_Error "TypeError".

(** [data.key], for the keys the widget reads ([status], [message],
    [publicKey], [balanceInSOL]), which no built-in prototype defines:
    reading them from [null] or [undefined] throws, from a number, a
    boolean, a string or an array gives [undefined]. *)
Definition get_property (data : JsVal) (key : string) : JsError + JsVal :=
  match data with
  | JUndefined | JNull => inl TypeError
  | JObj props => inr (own_property props key)
  | JBool _ | JNum _ | JStr _ | JArr _ => inr JUndefined
  end.

(** The index that [slice] makes of an argument: counted from the end
    when negative, clamped to the length. *)
Definition relative_index (len : nat) (i : Z) : nat :=
  if (i <? 0)%Z then Z.to_nat (Z.max (Z.of_nat len + i) 0)
  else Nat.min (Z.to_nat i) len.

(** [l.slice(start, end)], [end] being optional. *)
Definition slice {A : Type} (l : list A) (start : Z) (end_ : option Z) : list A :=
  let len := List.length l in
  let from := relative_index len start in
  let to := match end_ with Some e => relative_index len e | None => len end in
  firstn (to - from) (skipn from l).

(** [x.slice(start, end)] on a value: strings and arrays have the method,
    on anything else the call throws. *)
Definition call_slice (x : JsVal) (start : Z) (end_ : option Z) : JsError + JsVal :=
  match x with
  | JStr s =>
      inr (JStr (string_of_list_ascii (slice (list_ascii_of_string s) start end_)))
  | JArr items => inr (JArr (slice items start end_))
  | _ => inl TypeError
  end.

Definition needs_address_text : string :=
  "Please provide a Solana wallet address for me to check the balance.".

Definition apology_text : string :=
  "Sorry, I couldn't process your request. Please try again.".

Section Widget.

Context {B : Browser}.

(** What a template literal makes of a value. *)
Definition ToString (v : JsVal) : string :=
  match v with
  | JUndefined => "undefined"
  | JNull => "null"
  | JBool true => "true"
  | JBool false => "false"
  | JStr s => s
  | JNum _ | JArr _ | JObj _ => ToString_other v
  end.

Definition formatBalance (balanceInSOL : JsVal) : string :=
  NumberFormat_format balanceInSOL.

(** The value of [botMessage] that [handleSubmit] computes from the body
    [data] of the answer, or the error thrown on the way. *)
Definition botMessage (data : JsVal) : JsError + string :=
  match get_property data "status" with
  | inl e => inl e
  | inr status =>
      if strict_equals_string status "needs_address" then inr needs_address_text
      else if strict_equals_string status "success" then
        match get_property data "publicKey" with
        | inl e => inl e
        | inr key =>
            match call_slice key 0 (Some 4%Z) with
            | inl e => inl e
            | inr head =>
                match call_slice key (-4) None with
                | inl e => inl e
                | inr tail =>
                    match get_property data "balanceInSOL" with
                    | inl e => inl e
                    | inr balanceInSOL =>
                        inr ("The wallet " ++ ToString head ++ "..."
                             ++ ToString tail ++ " has a balance of "
                             ++ formatBalance balanceInSOL ++ " SOL")%string
                    end
                end
            end
        end
      else
        match get_property data "message" with
        | inl e => inl e
        | inr message =>
            inr ("Error: "
                 ++ ToString (if ToBoolean message then message
                              else JStr "Something went wrong"))%string
        end
  end.

(** [handleSubmit], as a step on the state.  [post] stands for [fetch] on
    [/api/natural/balance] with the body [{ query }] followed by
    [response.json()]: the parsed body, or the error either of them
    threw.  The second component lists the queries posted. *)
Definition handleSubmit (post : string -> JsError + JsVal) (st : State)
  : State * list string :=
  if negb (ToBoolean (JStr (trim (inputValue st)))) then (st, [])
  else
    let userMessage := inputValue st in
    let reply :=
      match post userMessage with
      | inl _ => apology_text
      | inr data =>
          match botMessage data with
          | inl _ => apology_text
          | inr text => text
          end
      end in
    ({| messages :=
          (messages st ++ [ {| type := "user"; content := userMessage |} ])
          ++ [ {| type := "bot"; content := reply |} ];
        inputValue := "";
        isLoading := false |},
     [userMessage]).

(** The first four and the last four characters of a string (the whole
    string when it has fewer). *)
Definition first_four (s : string) : string :=
  string_of_list_ascii (firstn 4 (list_ascii_of_string s)).

Definition last_four (s : string) : string :=
  string_of_list_ascii (skipn (String.length s - 4) (list_ascii_of_string s)).

(** [onChange={(e) => setInputValue(e.target.value)}] *)
Definition handleChange (value : string) (st : State) : State :=
  {| messages := messages st; inputValue := value; isLoading := isLoading st |}.

(** What the user does: type a value in the input, or submit the form.
    The input and the button are disabled while a request is pending, so
    one submission is over before the next action. *)
Inductive Action : Type :=
| TypeInput (value : string)
| SubmitForm.

Definition act (post : string -> JsError + JsVal) (a : Action) (st : State)
  : State * list string :=
  match a with
  | TypeInput value => (handleChange value st, [])
  | SubmitForm => handleSubmit post st
  end.

(** A series of actions, with the queries posted on the way. *)
Fixpoint session (post : string -> JsError + JsVal) (actions : list Action)
    (st : State) : State * list string :=
  match actions with
  | [] => (st, [])
  | a :: rest =>
      let (st1, posted1) := act post a st in
      let (st2, posted2) := session post rest st1 in
      (st2, posted1 ++ posted2)
  end.

(** The two messages of one exchange: the query, then the reply. *)
Definition exchange (p : string * string) : list Message :=
  [ {| type := "user"; content := fst p |};
    {| type := "bot"; content := snd p |} ].

End Widget.

End WalletChat.

(** ** More scripted nodes and a scripted browser *)

Section MoreRuns.

#[local] Existing Instance Demo.libs.

(** A node whose faucet refuses. *)
Definition refusing_faucet_node : Env :=
  Demo.stub {| Demo.balance_answers := [inr 0%float];
               Demo.airdrop_answer := inl (new_Error "faucet is dry");
               Demo.confirm_answer := inr {| value_err := JNull |};
               Demo.model_answer := inr "ask";
               Demo.repair_answer := inr "ask" |}.

(** A node on which waiting for the confirmation throws. *)
Definition timing_out_node : Env :=
  Demo.stub {| Demo.balance_answers := [inr 0%float];
               Demo.airdrop_answer := inr "signature";
               Demo.confirm_answer := inl (new_Error "timed out");
               Demo.model_answer := inr "ask";
               Demo.repair_answer := inr "ask" |}.

(** A node that confirms the airdrop and then stops answering balance
    reads. *)
Definition fading_node : Env := Demo.stub (Demo.script [inr 0%float] JNull "ask").

(** A model that cannot be reached. *)
Definition unreachable_model : Env :=
  Demo.stub {| Demo.balance_answers := [];
               Demo.airdrop_answer := inr "signature";
               Demo.confirm_answer := inr {| value_err := JNull |};
               Demo.model_answer := inl (new_Error "model unreachable");
               Demo.repair_answer := inr "ask" |}.

(** A model that finds [Demo.address], in front of a node whose balance
    reads all fail. *)
Definition found_on_dead_node : Env := Demo.stub (Demo.script [] JNull "found").

End MoreRuns.

Definition demo_browser : WalletChat.Browser := {|
  WalletChat.NumberFormat_format := fun _ => "1.00";
  WalletChat.ToString_other := fun _ => "[object Object]"
|}.

(** * Facts and theorems *)

(** *** Facts on the matcher *)

Section MatcherFacts.

Variable input : list N.
Variable ranges : list RegExp.ClassRange.

Local Notation run_of := (run_of input ranges).

Lemma nth_error_at_split (pre suf : list N) (u : N) :
  nth_error (pre ++ u :: suf) (List.length pre) = Some u.
Proof.
  rewrite nth_error_app2 by lia. rewrite Nat.sub_diag. reflexivity.
Qed.

Lemma run_of_spec (n : nat) :
  forall pre suf, input = pre ++ suf ->
    (run_of (List.length pre) n = true <->
     n <= List.length suf /\
     forallb (RegExp.class_matches ranges) (firstn n suf) = true).
Proof.
  induction n as [|n IH]; intros pre suf Hin.
  - simpl. split; intros; [split; [lia | reflexivity] | reflexivity].
  - simpl run_of. destruct suf as [|u suf'].
    + assert (Hnone : nth_error input (List.length pre) = None).
      { apply nth_error_None. rewrite Hin, app_nil_r. lia. }
      rewrite Hnone. split; [discriminate | intros [Hle _]; simpl in Hle; lia].
    + assert (Hsome : nth_error input (List.length pre) = Some u).
      { rewrite Hin. apply nth_error_at_split. }
      rewrite Hsome.
      assert (Hin' : input = (pre ++ [u]) ++ suf').
      { rewrite Hin, <- app_assoc. reflexivity. }
      specialize (IH _ _ Hin').
      rewrite length_app, Nat.add_1_r in IH.
      simpl firstn. simpl forallb. simpl List.length.
      rewrite andb_true_iff, IH, andb_true_iff. split.
      * intros [Hu [Hle Hall]]. repeat split; [lia | assumption | assumption].
      * intros [Hle [Hu Hall]]. repeat split; [assumption | lia | assumption].
Qed.

Lemma class_step (x : nat) (d : RegExp.Continuation) :
  RegExp.compile input (RegExp.CharClass ranges) x d
  = run_of x 1 && d (S x).
Proof.
  simpl. destruct (nth_error input x) as [u|]; [|reflexivity].
  destruct (RegExp.class_matches ranges u); reflexivity.
Qed.

Lemma run_of_S (x n : nat) :
  run_of x (S n) = run_of x 1 && run_of (S x) n.
Proof.
  simpl. destruct (nth_error input x) as [u|]; [|reflexivity].
  rewrite andb_true_r. reflexivity.
Qed.

(** The bounded quantifier over a class accepts exactly the runs of a
    length between [min] and [max] that the continuation accepts. *)
Lemma RepeatMatcher_class (max : nat) :
  forall min x (c : RegExp.Continuation), min <= max ->
    (RegExp.RepeatMatcher (RegExp.compile input (RegExp.CharClass ranges))
       min max x c = true <->
     exists n, min <= n <= max /\ run_of x n = true /\ c (x + n) = true).
Proof.
  induction max as [|max2 IH]; intros min x c Hle.
  - simpl. split.
    + intros Hc. exists 0. rewrite Nat.add_0_r. repeat split; [lia | lia | assumption].
    + intros [n [Hn [_ Hc]]]. assert (n = 0) by lia. subst n.
      rewrite Nat.add_0_r in Hc. assumption.
  - cbn [RegExp.RepeatMatcher]. rewrite class_step.
    assert (Hneq : (S x =? x) = false) by (apply Nat.eqb_neq; lia).
    rewrite Hneq, andb_false_r.
    destruct min as [|min'].
    + cbn [Nat.eqb negb Nat.sub]. rewrite orb_true_iff, andb_true_iff.
      rewrite (IH 0 (S x) c) by lia. split.
      * intros [[H1 [n [Hn [Hrun Hc]]]] | Hc].
        -- exists (S n). rewrite run_of_S, H1, Hrun.
           replace (x + S n) with (S x + n) by lia.
           repeat split; [lia | lia | assumption].
        -- exists 0. rewrite Nat.add_0_r. repeat split; [lia | lia | assumption].
      * intros [[|n] [Hn [Hrun Hc]]].
        -- right. rewrite Nat.add_0_r in Hc. assumption.
        -- left. rewrite run_of_S in Hrun. apply andb_true_iff in Hrun as [H1 Hrun].
           split; [assumption|]. exists n.
           replace (S x + n) with (x + S n) by lia.
           repeat split; [lia | lia | assumption | assumption].
    + cbn [Nat.eqb negb Nat.sub]. rewrite Nat.sub_0_r, andb_true_iff.
      rewrite (IH min' (S x) c) by lia. split.
      * intros [H1 [n [Hn [Hrun Hc]]]].
        exists (S n). rewrite run_of_S, H1, Hrun.
        replace (x + S n) with (S x + n) by lia.
        repeat split; [lia | lia | assumption].
      * intros [[|n] [Hn [Hrun Hc]]]; [lia|].
        rewrite run_of_S in Hrun. apply andb_true_iff in Hrun as [H1 Hrun].
        split; [assumption|]. exists n.
        replace (S x + n) with (x + S n) by lia.
        repeat split; [lia | lia | assumption | assumption].
Qed.

(** A pattern that opens with [^] cannot match from a later start index. *)
Lemma exec_from_anchored (p : RegExp.Pattern) (tries : nat) :
  forall lastIndex, 0 < lastIndex ->
    RegExp.exec_from
      (RegExp.compile input (RegExp.Seq RegExp.AssertStart p)) tries lastIndex
    = false.
Proof.
  induction tries as [|tries IH]; intros k Hk; [reflexivity|].
  cbn [RegExp.exec_from]. rewrite IH by lia.
  cbn [RegExp.compile].
  destruct (Nat.eqb_spec k 0); [lia | reflexivity].
Qed.

(** A whole-input pattern [^[class]{min,max}$]. *)
Lemma test_anchored_class (min max : nat) :
  min <= max ->
  (RegExp.test
     (RegExp.Seq RegExp.AssertStart
        (RegExp.Seq (RegExp.Quantified (RegExp.CharClass ranges) min max)
           RegExp.AssertEnd)) input = true <->
   min <= List.length input <= max /\
   forallb (RegExp.class_matches ranges) input = true).
Proof.
  intros Hle. unfold RegExp.test. cbn [RegExp.exec_from].
  rewrite exec_from_anchored by lia. rewrite orb_false_r.
  cbn [RegExp.compile Nat.eqb].
  rewrite RepeatMatcher_class by assumption.
  pose proof (fun n => run_of_spec n [] input eq_refl) as Hrun. simpl in Hrun.
  split.
  - intros [n [Hn [Hr Hend]]]. simpl in Hend.
    destruct (Nat.eqb_spec n (List.length input)) as [->|]; [|discriminate].
    apply Hrun in Hr as [_ Hall]. rewrite firstn_all in Hall. split; assumption.
  - intros [Hlen Hall]. exists (List.length input). simpl.
    rewrite Nat.eqb_refl. repeat split; try lia.
    apply Hrun. rewrite firstn_all. split; [lia | assumption].
Qed.

End MatcherFacts.

(** *** The class is the base-58 alphabet *)

Lemma address_class_is_base58 (c : ascii) :
  RegExp.class_matches address_class (cu c) = in_base58_alphabet c.
Proof.
  destruct c as [[] [] [] [] [] [] [] []]; vm_compute; reflexivity.
Qed.

Lemma in_base58_alphabet_In (c : ascii) :
  in_base58_alphabet c = true <-> In c (list_ascii_of_string base58_alphabet).
Proof.
  unfold in_base58_alphabet. rewrite existsb_exists. split.
  - intros [y [Hy Heq]]. apply Ascii.eqb_eq in Heq. subst y. assumption.
  - intros Hin. exists c. split; [assumption | apply Ascii.eqb_refl].
Qed.

Lemma length_code_units (s : string) :
  List.length (code_units s) = String.length s.
Proof.
  unfold code_units. rewrite length_map.
  induction s as [|a s IH]; simpl; [reflexivity | rewrite IH; reflexivity].
Qed.

Lemma forallb_code_units (s : string) :
  forallb (RegExp.class_matches address_class) (code_units s) = all_base58 s.
Proof.
  unfold code_units, all_base58.
  induction (list_ascii_of_string s) as [|a l IH]; [reflexivity|].
  simpl. rewrite IH. f_equal. apply address_class_is_base58.
Qed.

(** The validator as a plain test on the length and on the characters. *)
Lemma isPotentiallySolanaAddress_eq (s : string) :
  isPotentiallySolanaAddress s
  = (32 <=? String.length s) && (String.length s <=? 44) && all_base58 s.
Proof.
  apply eq_true_iff_eq. unfold isPotentiallySolanaAddress, address_pattern.
  rewrite test_anchored_class by lia.
  rewrite length_code_units, forallb_code_units.
  rewrite !andb_true_iff, !Nat.leb_le. tauto.
Qed.

(** C2. For every string [s] the Address Validator, which tests [s] against
    [^[1-9A-HJ-NP-Za-km-z]{32,44}$], answers true exactly when the length of
    [s] is between 32 and 44 and every character of [s] is in the base-58
    alphabet (digits and letters without 0, O, I and l): it rejects every
    string of another length or with a foreign character, and accepts
    every string of a length in range drawn from the alphabet. *)
Theorem isPotentiallySolanaAddress_iff (s : string) :
  isPotentiallySolanaAddress s = true <->
  32 <= String.length s <= 44 /\
  (forall c, In c (list_ascii_of_string s) ->
             In c (list_ascii_of_string base58_alphabet)).
Proof.
  rewrite isPotentiallySolanaAddress_eq, !andb_true_iff, !Nat.leb_le.
  unfold all_base58. rewrite forallb_forall.
  split.
  - intros [[H1 H2] H3]. split; [lia|].
    intros c Hc. apply in_base58_alphabet_In, H3, Hc.
  - intros [[H1 H2] H3]. repeat split; try assumption.
    intros c Hc. apply in_base58_alphabet_In, H3, Hc.
Qed.

(** The validator on three texts: a well-formed address, the same with
    a leading [0], and a text that is too short. *)
Example validator_accepts_address :
  isPotentiallySolanaAddress "4Nd1mBQtrMJVYVfKf2PJy9NZUZdTAsp7D4xWLs4gDB4T" = true.
Proof. vm_compute. reflexivity. Qed.

Example validator_rejects_zero :
  isPotentiallySolanaAddress "0Nd1mBQtrMJVYVfKf2PJy9NZUZdTAsp7D4xWLs4gDB4T" = false.
Proof. vm_compute. reflexivity. Qed.

Example validator_rejects_short : isPotentiallySolanaAddress "abc" = false.
Proof. vm_compute. reflexivity. Qed.

(** ** The Retrying RPC Client *)

Section RetryFacts.

Context {L : Libraries}.
Variable env : Env.
Variable publicKey : PublicKey.

Local Notation failed_attempt := (failed_attempt publicKey).
Local Notation failed_attempts := (failed_attempts publicKey).
Local Notation attempts_fail := (attempts_fail env publicKey).

Lemma delays_failed_attempts (es : list JsError) (r : JsError + float) :
  delays (failed_attempts es ++ [EvGetBalance publicKey "confirmed" r])
  = repeat 1000%Z (List.length es).
Proof.
  induction es as [|e es IH]; [reflexivity|].
  simpl. f_equal. exact IH.
Qed.

Lemma balance_reads_failed_attempts (es : list JsError) (r : JsError + float) :
  List.length
    (balance_reads (failed_attempts es ++ [EvGetBalance publicKey "confirmed" r]))
  = S (List.length es).
Proof.
  induction es as [|e es IH]; [reflexivity|].
  simpl. f_equal. exact IH.
Qed.

Lemma attempts_fail_app (es1 : list JsError) :
  forall h es2,
    attempts_fail h (es1 ++ es2) <->
    attempts_fail h es1 /\ attempts_fail (h ++ failed_attempts es1) es2.
Proof.
  induction es1 as [|e es1 IH]; intros h es2.
  - simpl. rewrite app_nil_r. tauto.
  - simpl. rewrite IH, <- app_assoc. tauto.
Qed.

(** One run of the loop, from the answers of the stub: [es] are the errors
    of the attempts that were retried, [r] is the answer of the attempt
    that ended the loop, either a balance or the error of the last attempt
    the budget allows. *)
Lemma getBalanceWithRetry_loop_run (maxRetries : nat) (es : list JsError) :
  forall remaining i h r,
    i + remaining = maxRetries ->
    List.length es < remaining ->
    attempts_fail h es ->
    connection_getBalance env (h ++ failed_attempts es) publicKey "confirmed" = r ->
    (exists balance, r = inr balance) \/ S (List.length es) = remaining ->
    Index.getBalanceWithRetry_loop env remaining i publicKey maxRetries h
    = (outcome r, failed_attempts es ++ [EvGetBalance publicKey "confirmed" r]).
Proof.
  induction es as [|e es IH]; intros remaining i h r Hsum Hlen Hfail Hlast Hend;
    (destruct remaining as [|remaining']; [simpl in Hlen; lia|]);
    cbn [Index.getBalanceWithRetry_loop];
    unfold try_catch, bind, getBalance, call, ret.
  - simpl in Hlast. rewrite app_nil_r in Hlast. rewrite Hlast.
    destruct r as [e|balance]; [|reflexivity].
    destruct Hend as [[b Hb]|Hone]; [discriminate|].
    simpl in Hone.
    assert (Hi : (i =? maxRetries - 1) = true) by (apply Nat.eqb_eq; lia).
    rewrite Hi. reflexivity.
  - destruct Hfail as [Hfirst Hrest]. rewrite Hfirst.
    simpl in Hlen.
    assert (Hi : (i =? maxRetries - 1) = false) by (apply Nat.eqb_neq; lia).
    rewrite Hi. unfold setTimeout, emit.
    replace ((h ++ [EvGetBalance publicKey "confirmed" (inl e)]) ++ [EvSetTimeout 1000])
      with (h ++ failed_attempt e)
      by (unfold failed_attempt; rewrite <- app_assoc; reflexivity).
    rewrite (IH remaining' (S i) (h ++ failed_attempt e) r).
    + reflexivity.
    + lia.
    + lia.
    + exact Hrest.
    + rewrite <- app_assoc. exact Hlast.
    + destruct Hend as [Hb|Hn]; [left; exact Hb | right; simpl in Hn; lia].
Qed.

(** Every run of the loop is of that form: the function is total, and
    whatever the stub answers there are such [es] and [r]. *)
Lemma getBalanceWithRetry_loop_cases (maxRetries : nat) :
  forall remaining i h,
    i + remaining = maxRetries ->
    0 < remaining ->
    exists es r,
      List.length es < remaining
      /\ attempts_fail h es
      /\ connection_getBalance env (h ++ failed_attempts es) publicKey "confirmed" = r
      /\ ((exists balance, r = inr balance) \/ S (List.length es) = remaining)
      /\ Index.getBalanceWithRetry_loop env remaining i publicKey maxRetries h
         = (outcome r, failed_attempts es ++ [EvGetBalance publicKey "confirmed" r]).
Proof.
  assert (Hmain : forall remaining h, 0 < remaining -> exists es r,
      List.length es < remaining
      /\ attempts_fail h es
      /\ connection_getBalance env (h ++ failed_attempts es) publicKey "confirmed" = r
      /\ ((exists balance, r = inr balance) \/ S (List.length es) = remaining)).
  { induction remaining as [|remaining' IH]; intros h Hpos; [lia|].
    destruct (connection_getBalance env h publicKey "confirmed") as [e|balance] eqn:Hfirst.
    - destruct remaining' as [|remaining''].
      + exists [], (inl e). simpl. rewrite app_nil_r.
        repeat split; [lia | exact Hfirst | right; reflexivity].
      + destruct (IH (h ++ failed_attempt e)) as [es [r [Hlen [Hf [Hl Hend]]]]];
          [lia|].
        exists (e :: es), r. simpl. rewrite <- app_assoc in Hl.
        repeat split; [lia | exact Hfirst | exact Hf | exact Hl |].
        destruct Hend as [Hb|Hn]; [left; exact Hb | right; lia].
    - exists [], (inr balance). simpl. rewrite app_nil_r.
      repeat split; [lia | exact Hfirst | left; exists balance; reflexivity]. }
  intros remaining i h Hsum Hpos.
  destruct (Hmain remaining h Hpos) as [es [r [Hlen [Hf [Hl Hend]]]]].
  exists es, r. repeat split; try assumption.
  apply getBalanceWithRetry_loop_run; assumption.
Qed.

Lemma getBalanceWithRetry_cases (h : list Event) :
  exists es r,
    List.length es < 5
    /\ attempts_fail h es
    /\ connection_getBalance env (h ++ failed_attempts es) publicKey "confirmed" = r
    /\ ((exists balance, r = inr balance) \/ List.length es = 4)
    /\ Index.getBalanceWithRetry env publicKey Index.maxRetries_default h
       = (outcome r, failed_attempts es ++ [EvGetBalance publicKey "confirmed" r]).
Proof.
  destruct (@getBalanceWithRetry_loop_cases 5 5 0 h eq_refl)
    as [es [r [Hlen [Hf [Hl [Hend Hrun]]]]]]; [lia|].
  exists es, r. repeat split; try assumption.
  destruct Hend as [Hb|Hn]; [left; exact Hb | right; lia].
Qed.

(** The two copies of the function are the same function. *)
Lemma BalanceHandler_getBalanceWithRetry_eq (maxRetries : nat) :
  BalanceHandler.getBalanceWithRetry env publicKey maxRetries
  = Index.getBalanceWithRetry env publicKey maxRetries.
Proof. reflexivity. Qed.

End RetryFacts.

(** ** Facts on reading a log *)

Section LogFacts.

Context {L : Libraries}.



Lemma repairs_app (a b : list Event) : repairs (a ++ b) = repairs a ++ repairs b.
Proof. apply filter_app. Qed.

Lemma repairs_failed_attempts (address : PublicKey) (es : list JsError) :
  repairs (failed_attempts address es) = [].
Proof. induction es as [|e es IH]; [reflexivity | exact IH]. Qed.

Lemma accepts_iff (ev : Event) :
  accepts ev = true <-> exists s, ev = EvIsPotentiallySolanaAddress s true.
Proof.
  split.
  - destruct ev; try discriminate. destruct r; [|discriminate].
    intros _. eexists. reflexivity.
  - intros [s ->]. reflexivity.
Qed.

Lemma validated_scan_spec (evs : list Event) :
  forall validated,
    validated_scan validated evs = true <->
    (forall before ev after,
       evs = before ++ ev :: after -> is_rpc ev = true ->
       validated = true \/ existsb accepts before = true).
Proof.
  induction evs as [|ev0 rest IH]; intros validated.
  - split; [|reflexivity].
    intros _ before ev after Heq. destruct before; discriminate Heq.
  - cbn [validated_scan]. rewrite andb_true_iff, IH. split.
    + intros [Hhead Hrest] before ev after Heq Hrpc.
      destruct before as [|b0 before'].
      * inversion Heq; subst. rewrite Hrpc in Hhead. left. exact Hhead.
      * inversion Heq; subst.
        destruct (Hrest before' ev after eq_refl Hrpc) as [Hv|Hb].
        -- apply orb_true_iff in Hv as [Hv|Hv]; [left; exact Hv|].
           right. cbn [existsb]. rewrite Hv. reflexivity.
        -- right. cbn [existsb]. rewrite Hb. apply orb_true_r.
    + intros Hall. split.
      * destruct (is_rpc ev0) eqn:Hrpc; [|reflexivity].
        destruct (Hall [] ev0 rest eq_refl Hrpc) as [Hv|Hb];
          [exact Hv | discriminate Hb].
      * intros before ev after Heq Hrpc.
        destruct (Hall (ev0 :: before) ev after) as [Hv|Hb].
        -- rewrite Heq. reflexivity.
        -- exact Hrpc.
        -- left. rewrite Hv. reflexivity.
        -- cbn [existsb] in Hb. apply orb_true_iff in Hb as [Hb|Hb].
           ++ left. rewrite Hb. apply orb_true_r.
           ++ right. exact Hb.
Qed.

(** What the scan decides: in the log, before every call to the remote
    ledger there is a call of the validator that accepted. *)
Lemma validated_before_rpc_iff (evs : list Event) :
  validated_before_rpc evs = true <->
  (forall before ev after,
     evs = before ++ ev :: after -> is_rpc ev = true ->
     exists s, In (EvIsPotentiallySolanaAddress s true) before).
Proof.
  unfold validated_before_rpc. rewrite validated_scan_spec. split.
  - intros Hall before ev after Heq Hrpc.
    destruct (Hall before ev after Heq Hrpc) as [Hv|Hb]; [discriminate Hv|].
    apply existsb_exists in Hb as [ev' [Hin Hacc]].
    apply accepts_iff in Hacc as [s ->]. exists s. exact Hin.
  - intros Hall before ev after Heq Hrpc. right.
    destruct (Hall before ev after Heq Hrpc) as [s Hin].
    apply existsb_exists. eexists. split; [exact Hin | reflexivity].
Qed.

End LogFacts.

(** ** Reading a run backwards *)

Section RunInversion.

Context {L : Libraries}.

Lemma bind_inv {A B : Type} (m : M A) (k : A -> M B) h r evs :
  bind m k h = (r, evs) ->
  (exists e, m h = (inl e, evs) /\ r = inl e)
  \/ (exists a out out', m h = (inr a, out) /\ k a (h ++ out) = (r, out')
                         /\ evs = out ++ out').
Proof.
  unfold bind. destruct (m h) as [[e|a] out].
  - intros H. inversion H. left. exists e. split; reflexivity.
  - destruct (k a (h ++ out)) as [r' out'] eqn:Hk. intros H. inversion H. subst.
    right. exists a, out, out'. repeat split. exact Hk.
Qed.

Lemma try_catch_inv {A : Type} (m : M A) (handler : JsError -> M A) h r evs :
  try_catch m handler h = (r, evs) ->
  (exists a, m h = (inr a, evs) /\ r = inr a)
  \/ (exists e out out', m h = (inl e, out) /\ handler e (h ++ out) = (r, out')
                         /\ evs = out ++ out').
Proof.
  unfold try_catch. destruct (m h) as [[e|a] out].
  - destruct (handler e (h ++ out)) as [r' out'] eqn:Hk. intros H. inversion H. subst.
    right. exists e, out, out'. repeat split. exact Hk.
  - intros H. inversion H. left. exists a. split; reflexivity.
Qed.

Lemma call_inv {A : Type} (answer : list Event -> JsError + A) ev h r evs :
  call answer ev h = (r, evs) -> r = answer h /\ evs = [ev r].
Proof. unfold call. intros H. inversion H. split; reflexivity. Qed.

Lemma in_failed_attempts (address : PublicKey) (es : list JsError) (ev : Event) :
  In ev (failed_attempts address es) ->
  (exists e, ev = EvGetBalance address "confirmed" (inl e))
  \/ ev = EvSetTimeout 1000.
Proof.
  induction es as [|e es IH]; simpl; [tauto|].
  intros [H|[H|H]];
    [left; exists e; symmetry; exact H | right; symmetry; exact H | exact (IH H)].
Qed.


End RunInversion.

(** One step backwards through a computation whose result is known. *)
Ltac invert_run_step :=
  match goal with
  | H : bind _ _ _ = (_, _) |- _ =>
      apply bind_inv in H;
      destruct H as [(? & H & ?) | (? & ? & ? & ? & H & ?)]
  | H : try_catch _ _ _ = (_, _) |- _ =>
      apply try_catch_inv in H;
      destruct H as [(? & H & ?) | (? & ? & ? & ? & H & ?)]
  | H : call _ _ _ = (_, _) |- _ =>
      apply call_inv in H; destruct H as [? ?]
  | H : ret _ _ = (_, _) |- _ => unfold ret in H; inversion H; clear H
  | H : throw _ _ = (_, _) |- _ => unfold throw in H; inversion H; clear H
  | H : emit _ _ = (_, _) |- _ => unfold emit in H; inversion H; clear H
  | H : (if ?c then _ else _) _ = (_, _) |- _ => destruct c eqn:?
  | H : inl _ = inl _ |- _ => inversion H; clear H
  | H : inr _ = inr _ |- _ => inversion H; clear H
  | H : inl _ = inr _ |- _ => discriminate H
  | H : inr _ = inl _ |- _ => discriminate H
  end.

Ltac invert_run := repeat (invert_run_step; subst).

(** Replace a run of the retrying reader by its shape. *)
Ltac invert_retry env :=
  repeat match goal with
  | H : Index.getBalanceWithRetry env ?a Index.maxRetries_default ?h = (_, _) |- _ =>
      let es := fresh "es" in
      let r := fresh "r" in
      let Hrun := fresh "Hrun" in
      destruct (getBalanceWithRetry_cases env a h)
        as (es & r & _ & _ & _ & _ & Hrun);
      rewrite Hrun in H; inversion H; clear H Hrun
  | H : BalanceHandler.getBalanceWithRetry env ?a BalanceHandler.maxRetries_default ?h
        = (_, _) |- _ =>
      change (BalanceHandler.getBalanceWithRetry env a BalanceHandler.maxRetries_default h)
        with (Index.getBalanceWithRetry env a Index.maxRetries_default h) in H
  | H : outcome ?r = inl _ |- _ => destruct r; [|discriminate H]; inversion H; clear H
  | H : outcome ?r = inr _ |- _ => destruct r; [discriminate H|]; inversion H; clear H
  end.

(** Where in a log an event can be. *)
Ltac split_In :=
  repeat match goal with
  | H : In _ (_ ++ _) |- _ => apply in_app_or in H; destruct H as [H|H]
  | H : In _ (failed_attempts _ _) |- _ =>
      apply in_failed_attempts in H; destruct H as [[? H]|H]
  | H : In _ [] |- _ => destruct H
  | H : In _ (_ :: _) |- _ => destruct H as [H|H]
  end.

Ltac event_eq :=
  repeat match goal with
  | H : @eq Event _ _ |- _ => first [discriminate H | inversion H; clear H; subst]
  end.

(** ** The retrying reader: theorems *)

Section RetryTheorems.

Context {L : Libraries}.
Variable env : Env.
Variable publicKey : PublicKey.

(** C3. With a stub that fails on every call, the Retrying RPC Client makes
    exactly five attempts, waits one second after each of the first four,
    and then throws the error of the fifth attempt itself, unchanged. *)
Theorem getBalanceWithRetry_exhausted (h : list Event) :
  (forall h', exists e, connection_getBalance env h' publicKey "confirmed" = inl e) ->
  exists es e,
    List.length es = 4
    /\ attempts_fail env publicKey h es
    /\ connection_getBalance env (h ++ failed_attempts publicKey es) publicKey "confirmed"
       = inl e
    /\ Index.getBalanceWithRetry env publicKey Index.maxRetries_default h
       = (inl e, failed_attempts publicKey es ++ [EvGetBalance publicKey "confirmed" (inl e)])
    /\ List.length
         (balance_reads
            (snd (Index.getBalanceWithRetry env publicKey Index.maxRetries_default h)))
       = 5
    /\ delays (snd (Index.getBalanceWithRetry env publicKey Index.maxRetries_default h))
       = [1000; 1000; 1000; 1000]%Z.
Proof.
  intros Hfails.
  destruct (getBalanceWithRetry_cases env publicKey h)
    as (es & r & Hlen & Hf & Hlast & Hend & Hrun).
  destruct (Hfails (h ++ failed_attempts publicKey es)) as [e He].
  rewrite He in Hlast. subst r.
  destruct Hend as [[b Hb]|Hfour]; [discriminate Hb|].
  exists es, e. rewrite Hrun. cbn [snd outcome].
  rewrite delays_failed_attempts, balance_reads_failed_attempts, Hfour.
  repeat split; try assumption.
Qed.

(** C4. With a stub that fails on the first four attempts and answers on
    the fifth, the Retrying RPC Client (either copy of it) returns that
    answer, after exactly four waits of one second, one after each
    failure. *)
Theorem getBalanceWithRetry_fifth_attempt (h : list Event)
    (e1 e2 e3 e4 : JsError) (balance : float) :
  attempts_fail env publicKey h [e1; e2; e3; e4] ->
  connection_getBalance env (h ++ failed_attempts publicKey [e1; e2; e3; e4])
    publicKey "confirmed" = inr balance ->
  let evs :=
    failed_attempts publicKey [e1; e2; e3; e4]
    ++ [EvGetBalance publicKey "confirmed" (inr balance)] in
  Index.getBalanceWithRetry env publicKey Index.maxRetries_default h
  = (inr (JNum balance), evs)
  /\ BalanceHandler.getBalanceWithRetry env publicKey BalanceHandler.maxRetries_default h
     = (inr (JNum balance), evs)
  /\ delays evs = [1000; 1000; 1000; 1000]%Z
  /\ List.length (balance_reads evs) = 5.
Proof.
  intros Hfail Hlast evs.
  assert (Hrun : Index.getBalanceWithRetry env publicKey Index.maxRetries_default h
                 = (inr (JNum balance), evs)).
  { unfold Index.getBalanceWithRetry, Index.maxRetries_default.
    rewrite (@getBalanceWithRetry_loop_run L env publicKey 5 [e1; e2; e3; e4]
               5 0 h (inr balance));
      try assumption; try reflexivity.
    - simpl. lia.
    - left. exists balance. reflexivity. }
  repeat split.
  - exact Hrun.
  - exact Hrun.
Qed.

End RetryTheorems.

(** ** The Airdrop Orchestrator: theorems *)

Ltac unfold_airdrop :=
  unfold Index.post_api_wallet_airdrop, new_PublicKey, requestAirdrop,
    confirmTransaction, setTimeout, console_error;
  cbv zeta.

Section AirdropTheorems.

Context {L : Libraries}.
Variable env : Env.

(** C10. An airdrop request whose amount is 0, or whose publicKey is the
    empty string, is answered 400 "Missing required parameters" and
    nothing else happens: the log of the run is empty, so no address was
    parsed, no balance was read and nothing was submitted to the faucet. *)
Theorem airdrop_missing_parameters (h : list Event) (publicKey amount : JsVal) :
  Index.post_api_wallet_airdrop env publicKey (JNum 0%float) h
  = (inr answer_missing_parameters, [])
  /\ Index.post_api_wallet_airdrop env (JStr "") amount h
     = (inr answer_missing_parameters, []).
Proof.
  split.
  - unfold Index.post_api_wallet_airdrop, try_catch. cbv zeta.
    replace (ToBoolean (JNum 0%float)) with false by reflexivity.
    cbn [negb]. rewrite orb_true_r. reflexivity.
  - reflexivity.
Qed.

(** C5. In every airdrop run in which the confirmation carries a
    transaction-level error (a value of [confirmation.value.err] that
    counts as true, as every object does), the route answers 500 "Airdrop
    failed" with that error embedded in the details; the confirmation is
    the last call to the ledger, followed only by the console report: the
    wait of two seconds and the second balance read never run, and no
    airdrop result is returned. *)
Theorem airdrop_transaction_error (publicKey amount : JsVal) (h : list Event)
    (r : JsError + Response) (evs : list Event)
    (signature commitment : string) (confirmation : Confirmation) :
  Index.post_api_wallet_airdrop env publicKey amount h = (r, evs) ->
  In (EvConfirmTransaction signature commitment (inr confirmation)) evs ->
  ToBoolean (value_err confirmation) = true ->
  let cause :=
    String.append "Transaction confirmation failed: "
      (String.append "Transaction failed: "
         (JSON_stringify (value_err confirmation))) in
  r = inr (answer_airdrop_failed cause)
  /\ (exists before,
        evs = before ++ [ EvConfirmTransaction signature commitment (inr confirmation);
                          EvConsoleError "Airdrop error:" (new_Error cause) ])
  /\ ~ In (EvSetTimeout 2000) evs.
Proof.
  unfold_airdrop. intros Hrun Hin Herr.
  invert_run; invert_retry env; subst; split_In; event_eq.
  all: try congruence.
  split; [reflexivity | split].
  - rewrite ?app_nil_r, <- ?app_assoc. cbn [app].
    match goal with
    | |- exists before, ?n :: ?fa ++ [?g; ?ra; ?c1; ?c2] = _ =>
        exists (n :: fa ++ [g; ra])
    end.
    cbn [app]. rewrite <- app_assoc. reflexivity.
  - intros Hst. split_In; event_eq.
Qed.

(** C6. Every airdrop run that succeeds (answers 200) went through the
    five steps in order, and its answer gives as change the balance read
    after the wait minus the balance read at the start, converted to SOL,
    with status "confirmed".  With an initial balance of 0 and a balance
    after the wait of one unit (10^9 lamports) the change is exactly 1. *)
Theorem airdrop_success (publicKey amount : JsVal) (h : list Event)
    (resp : Response) (evs : list Event) :
  Index.post_api_wallet_airdrop env publicKey amount h = (inr resp, evs) ->
  status resp = 200%Z ->
  (exists address signature confirmation initial newBalance es1 es2,
     evs = [EvNewPublicKey publicKey (inr address)]
           ++ failed_attempts address es1
           ++ [ EvGetBalance address "confirmed" (inr initial);
                EvRequestAirdrop address (js_mul amount (JNum LAMPORTS_PER_SOL))
                  (inr signature);
                EvConfirmTransaction signature "confirmed" (inr confirmation);
                EvSetTimeout 2000 ]
           ++ failed_attempts address es2
           ++ [EvGetBalance address "confirmed" (inr newBalance)]
     /\ body resp
        = JObj [ ("publicKey", JStr (PublicKey_toString address));
                 ("signature", JStr signature);
                 ("requestedAmount", amount);
                 ("initialBalanceSOL", JNum (initial / LAMPORTS_PER_SOL)%float);
                 ("newBalanceSOL", JNum (newBalance / LAMPORTS_PER_SOL)%float);
                 ("actualChangeSOL",
                  JNum ((newBalance - initial) / LAMPORTS_PER_SOL)%float);
                 ("message", JStr "Airdrop successful");
                 ("status", JStr "confirmed") ])
  /\ ((1000000000 - 0) / LAMPORTS_PER_SOL)%float = 1%float.
Proof.
  unfold_airdrop. intros Hrun Hstatus.
  split; [|reflexivity].
  invert_run; invert_retry env; subst; try discriminate Hstatus.
  do 7 eexists. split.
  - rewrite ?app_nil_r, <- ?app_assoc. cbn [app]. reflexivity.
  - reflexivity.
Qed.

End AirdropTheorems.

(** ** The natural-language balance flow: theorems *)

Ltac unfold_natural :=
  unfold BalanceHandler.handleBalanceQuery, BalanceHandler.fixingParser_parse,
    BalanceHandler.call_parser_parse, BalanceHandler.model_invoke_content,
    new_PublicKey, console_error;
  cbv zeta.

Ltac invert_validator :=
  repeat match goal with
  | H : BalanceHandler.call_isPotentiallySolanaAddress _ _ = (_, _) |- _ =>
      unfold BalanceHandler.call_isPotentiallySolanaAddress in H;
      inversion H; clear H; subst
  end.

Ltac invert_natural env :=
  repeat (first [ invert_run_step
                | progress invert_validator
                | progress invert_retry env ]; subst).

(** The extracted intent asks for an address, against what the branch
    taken says. *)
Ltac needs_address_clash Hflag :=
  match goal with
  | H : (needsAddress ?p =? "true")%string || (publicKey ?p =? "none")%string = false
    |- _ =>
      rewrite Hflag in H; cbn in H; rewrite ?orb_true_r in H; discriminate H
  end.

Section NaturalTheorems.

Context {L : Libraries}.
Variable env : Env.

(** C7. Whenever the Intent Extractor returns an intent whose
    [needsAddress] field is the string "true", the natural-language
    balance flow answers with status "needs_address" and its run holds no
    call to the remote ledger. *)
Theorem natural_balance_needs_address_flag (query : JsVal) (h : list Event)
    (r : JsError + Response) (evs : list Event) (text : string)
    (parsed : ParsedResponse) :
  BalanceHandler.handleBalanceQuery env query h = (r, evs) ->
  In (EvParserParse text (inr parsed)) evs ->
  needsAddress parsed = "true" ->
  r = inr answer_needs_address
  /\ Forall (fun ev => is_rpc ev = false) evs.
Proof.
  unfold_natural. intros Hrun Hin Hflag.
  invert_natural env; split_In; event_eq;
    try needs_address_clash Hflag; try congruence.
  all: split; [reflexivity | cbn [app]; repeat constructor].
Qed.

(** C9. Whenever the parsed intent has the literal string "none" as its
    [publicKey], whatever its [needsAddress] field says, the flow answers
    with status "needs_address", and its run holds no call of the
    validator and no call to the remote ledger. *)
Theorem natural_balance_none_address (query : JsVal) (h : list Event)
    (r : JsError + Response) (evs : list Event) (text : string)
    (parsed : ParsedResponse) :
  BalanceHandler.handleBalanceQuery env query h = (r, evs) ->
  In (EvParserParse text (inr parsed)) evs ->
  publicKey parsed = "none" ->
  r = inr answer_needs_address
  /\ Forall (fun ev => is_validation ev = false /\ is_rpc ev = false) evs.
Proof.
  unfold_natural. intros Hrun Hin Hnone.
  invert_natural env; split_In; event_eq;
    try needs_address_clash Hnone; try congruence.
  all: split; [reflexivity | cbn [app]; repeat constructor].
Qed.

(** C8. The Intent Extractor makes at most one repair pass.  In every run
    of the flow the repair chain is called at most once.  When the text
    the model returned does not parse, the repair chain is called exactly
    once, with the schema (the parser's format instructions), that text
    and the parse error; and when the repaired text does not parse
    either, nothing more is tried: the flow answers 500 "Processing
    failed" with the error of that second parse, the repair call being
    followed only by the second parse and the console report. *)
Theorem intent_repair_single_pass (query : JsVal) (h : list Event)
    (r : JsError + Response) (evs : list Event) :
  BalanceHandler.handleBalanceQuery env query h = (r, evs) ->
  List.length (repairs evs) <= 1
  /\ (forall prompt text e,
        In (EvModelInvoke prompt (inr text)) evs ->
        parser_parse text = inl e ->
        exists repaired,
          repairs evs = [EvRetryChain parser_getFormatInstructions text e repaired]
          /\ (forall newCompletion e',
                repaired = inr newCompletion ->
                parser_parse newCompletion = inl e' ->
                r = inr (answer_processing_failed (message e'))
                /\ exists before,
                     evs = before
                           ++ [ EvRetryChain parser_getFormatInstructions text e repaired;
                                EvParserParse newCompletion (inl e');
                                EvConsoleError "Natural language processing error:" e' ])).
Proof.
  unfold_natural. intros Hrun. split.
  - invert_natural env; rewrite ?repairs_app, ?repairs_failed_attempts;
      cbn [repairs filter app List.length]; lia.
  - intros prompt text e Hin Hparse.
    invert_natural env; split_In; event_eq; try congruence.
    all: rewrite ?repairs_app, ?repairs_failed_attempts; cbn [repairs filter app].
    all: match goal with
         | H1 : inl ?x = parser_parse ?t, H2 : parser_parse ?t = inl ?y |- _ =>
             assert (x = y) by congruence; subst x
         end.
    all: eexists; split; [reflexivity|].
    all: intros newCompletion e' Hrepaired Hparse'; inversion Hrepaired; subst.
    all: try congruence.
    match goal with
    | H1 : inl ?x = parser_parse ?t, H2 : parser_parse ?t = inl ?y |- _ =>
        assert (x = y) by congruence; subst x
    end.
    split; [reflexivity|].
    eexists [_; _]. reflexivity.
Qed.
End NaturalTheorems.

(** ** Which guard stands before the remote calls *)

Section GuardTheorems.

Context {L : Libraries}.
Variable env : Env.








End GuardTheorems.


(** ** The theorems at work on the stubs *)

Section Witnesses.

#[local] Existing Instance Demo.libs.

(** C3 on the dead node: five reads, four waits, the last error thrown. *)
Lemma getBalanceWithRetry_exhausted_witness :
  exists es e,
    List.length es = 4
    /\ attempts_fail dead_node Demo.address [] es
    /\ connection_getBalance dead_node ([] ++ failed_attempts Demo.address es)
         Demo.address "confirmed" = inl e
    /\ Index.getBalanceWithRetry dead_node Demo.address Index.maxRetries_default []
       = (inl e, failed_attempts Demo.address es
                 ++ [EvGetBalance Demo.address "confirmed" (inl e)])
    /\ List.length
         (balance_reads
            (snd (Index.getBalanceWithRetry dead_node Demo.address
                    Index.maxRetries_default [])))
       = 5
    /\ delays (snd (Index.getBalanceWithRetry dead_node Demo.address
                      Index.maxRetries_default []))
       = [1000; 1000; 1000; 1000]%Z.
Proof.
  apply (@getBalanceWithRetry_exhausted Demo.libs dead_node Demo.address []).
  intros h'. exists Demo.fetch_failed. cbn.
  destruct (List.length (balance_reads h')); reflexivity.
Defined.

(** C4 on the flaky node. *)
Lemma getBalanceWithRetry_fifth_attempt_witness :
  let evs :=
    failed_attempts Demo.address
      [new_Error "blip 1"; new_Error "blip 2"; new_Error "blip 3"; new_Error "blip 4"]
    ++ [EvGetBalance Demo.address "confirmed" (inr 7%float)] in
  Index.getBalanceWithRetry flaky_node Demo.address Index.maxRetries_default []
  = (inr (JNum 7%float), evs)
  /\ BalanceHandler.getBalanceWithRetry flaky_node Demo.address
       BalanceHandler.maxRetries_default []
     = (inr (JNum 7%float), evs)
  /\ delays evs = [1000; 1000; 1000; 1000]%Z
  /\ List.length (balance_reads evs) = 5.
Proof.
  apply (@getBalanceWithRetry_fifth_attempt Demo.libs flaky_node Demo.address []
           (new_Error "blip 1") (new_Error "blip 2") (new_Error "blip 3")
           (new_Error "blip 4") 7%float).
  - cbn. repeat split.
  - reflexivity.
Defined.

(** C5 on the node whose confirmation carries an error. *)
Lemma airdrop_transaction_error_witness :
  let run :=
    Index.post_api_wallet_airdrop failing_transaction_node (JStr Demo.address)
      (JNum 1%float) [] in
  let cause :=
    "Transaction confirmation failed: Transaction failed: {InstructionError}" in
  fst run = inr (answer_airdrop_failed cause)
  /\ (exists before,
        snd run
        = before ++ [ EvConfirmTransaction "signature" "confirmed"
                        (inr {| value_err := instruction_error |});
                      EvConsoleError "Airdrop error:" (new_Error cause) ])
  /\ ~ In (EvSetTimeout 2000) (snd run).
Proof.
  cbv zeta.
  apply (@airdrop_transaction_error Demo.libs failing_transaction_node
           (JStr Demo.address) (JNum 1%float) []
           (fst (Index.post_api_wallet_airdrop failing_transaction_node
                   (JStr Demo.address) (JNum 1%float) []))
           (snd (Index.post_api_wallet_airdrop failing_transaction_node
                   (JStr Demo.address) (JNum 1%float) []))
           "signature" "confirmed" {| value_err := instruction_error |}).
  - apply surjective_pairing.
  - do 3 right. left. reflexivity.
  - reflexivity.
Defined.

(** C6 on the healthy node: from 0 to 10^9 lamports, a change of 1. *)
Lemma airdrop_success_witness :
  (exists address signature confirmation initial newBalance es1 es2,
    snd (Index.post_api_wallet_airdrop healthy_node (JStr Demo.address)
           (JNum 1%float) [])
    = [EvNewPublicKey (JStr Demo.address) (inr address)]
      ++ failed_attempts address es1
      ++ [ EvGetBalance address "confirmed" (inr initial);
           EvRequestAirdrop address (js_mul (JNum 1%float) (JNum LAMPORTS_PER_SOL))
             (inr signature);
           EvConfirmTransaction signature "confirmed" (inr confirmation);
           EvSetTimeout 2000 ]
      ++ failed_attempts address es2
      ++ [EvGetBalance address "confirmed" (inr newBalance)]
    /\ JObj [ ("publicKey", JStr Demo.address);
              ("signature", JStr "signature");
              ("requestedAmount", JNum 1%float);
              ("initialBalanceSOL", JNum 0%float);
              ("newBalanceSOL", JNum 1%float);
              ("actualChangeSOL", JNum 1%float);
              ("message", JStr "Airdrop successful");
              ("status", JStr "confirmed") ]
       = JObj [ ("publicKey", JStr (PublicKey_toString address));
                ("signature", JStr signature);
                ("requestedAmount", JNum 1%float);
                ("initialBalanceSOL", JNum (initial / LAMPORTS_PER_SOL)%float);
                ("newBalanceSOL", JNum (newBalance / LAMPORTS_PER_SOL)%float);
                ("actualChangeSOL",
                 JNum ((newBalance - initial) / LAMPORTS_PER_SOL)%float);
                ("message", JStr "Airdrop successful");
                ("status", JStr "confirmed") ])
  /\ ((1000000000 - 0) / LAMPORTS_PER_SOL)%float = 1%float.
Proof.
  apply (@airdrop_success Demo.libs healthy_node (JStr Demo.address) (JNum 1%float) []
           {| status := 200;
              body := JObj [ ("publicKey", JStr Demo.address);
                             ("signature", JStr "signature");
                             ("requestedAmount", JNum 1%float);
                             ("initialBalanceSOL", JNum 0%float);
                             ("newBalanceSOL", JNum 1%float);
                             ("actualChangeSOL", JNum 1%float);
                             ("message", JStr "Airdrop successful");
                             ("status", JStr "confirmed") ] |}
           (snd (Index.post_api_wallet_airdrop healthy_node (JStr Demo.address)
                   (JNum 1%float) []))).
  - reflexivity.
  - reflexivity.
Defined.

(** C7 on the model that asks for an address. *)
Lemma natural_balance_needs_address_flag_witness :
  let run :=
    BalanceHandler.handleBalanceQuery asking_model
      (JStr "What's my balance?") [] in
  fst run = inr answer_needs_address
  /\ Forall (fun ev => is_rpc ev = false) (snd run).
Proof.
  cbv zeta.
  apply (@natural_balance_needs_address_flag Demo.libs asking_model
           (JStr "What's my balance?") [] _ _ "ask"
           {| action := "request_address"; publicKey := "none";
              needsAddress := "true" |}).
  - apply surjective_pairing.
  - right. left. reflexivity.
  - reflexivity.
Defined.

(** C9 on the model that names no address and says none is needed. *)
Lemma natural_balance_none_address_witness :
  let run :=
    BalanceHandler.handleBalanceQuery none_model
      (JStr "What's my balance?") [] in
  fst run = inr answer_needs_address
  /\ Forall (fun ev => is_validation ev = false /\ is_rpc ev = false) (snd run).
Proof.
  cbv zeta.
  apply (@natural_balance_none_address Demo.libs none_model
           (JStr "What's my balance?") [] _ _ "none"
           {| action := "get_balance"; publicKey := "none";
              needsAddress := "false" |}).
  - apply surjective_pairing.
  - right. left. reflexivity.
  - reflexivity.
Defined.

(** C8 on the model whose answer does not parse, before or after the
    repair: one repair call, then the failure. *)
Lemma intent_repair_single_pass_witness :
  let run :=
    BalanceHandler.handleBalanceQuery garbled_model
      (JStr "What's my balance?") [] in
  List.length (repairs (snd run)) <= 1
  /\ repairs (snd run)
     = [EvRetryChain "schema" "garbage" (new_Error "Failed to parse") (inr "garbage")]
  /\ fst run = inr (answer_processing_failed "Failed to parse").
Proof.
  cbv zeta.
  destruct (@intent_repair_single_pass Demo.libs garbled_model
              (JStr "What's my balance?") [] _ _
              (surjective_pairing _)) as [Hbound Hrepair].
  assert (Hin : In (EvModelInvoke "prompt" (inr "garbage"))
                  (snd (BalanceHandler.handleBalanceQuery garbled_model
                          (JStr "What's my balance?") []))).
  { left. reflexivity. }
  destruct (Hrepair "prompt" "garbage" (new_Error "Failed to parse") Hin eq_refl)
    as [repaired [Hone Hfail]].
  split; [exact Hbound|]. split; [reflexivity|].
  assert (Hrepaired : repaired = inr "garbage").
  { cbn in Hone. inversion Hone. reflexivity. }
  destruct (Hfail "garbage" (new_Error "Failed to parse") Hrepaired eq_refl)
    as [Hanswer _].
  exact Hanswer.
Defined.


End Witnesses.

(** * Further properties of the code *)

(** ** The retrying reader under any budget *)

Section RetryBudget.

Context {L : Libraries}.
Variable env : Env.
Variable publicKey : PublicKey.

Lemma Forall_repeat {A : Type} (P : A -> Prop) (a : A) (n : nat) :
  P a -> Forall P (repeat a n).
Proof. intros Ha. induction n; constructor; assumption. Qed.

(** X1. Whatever the budget [maxRetries] and whatever the node answers,
    [getBalanceWithRetry] reads the balance at most [maxRetries] times,
    waits exactly once between two consecutive reads and never after the
    last one, each wait being of 1000 ms; with a budget of zero it calls
    nothing and returns [undefined]. *)
Theorem getBalanceWithRetry_budget (maxRetries : nat) (h : list Event)
    (r : JsError + JsVal) (evs : list Event) :
  Index.getBalanceWithRetry env publicKey maxRetries h = (r, evs) ->
  List.length (balance_reads evs) <= maxRetries
  /\ List.length (delays evs) = List.length (balance_reads evs) - 1
  /\ Forall (fun ms => ms = 1000%Z) (delays evs)
  /\ (maxRetries = 0 -> r = inr JUndefined /\ evs = []).
Proof.
  intros Hrun. destruct maxRetries as [|n].
  - inversion Hrun. subst. cbn. repeat split; try lia. constructor.
  - destruct (@getBalanceWithRetry_loop_cases L env publicKey (S n) (S n) 0 h eq_refl)
      as (es & last & Hlen & _ & _ & _ & Hshape); [lia|].
    unfold Index.getBalanceWithRetry in Hrun. rewrite Hshape in Hrun.
    inversion Hrun. subst.
    rewrite delays_failed_attempts, balance_reads_failed_attempts, repeat_length.
    repeat split; try lia.
    apply Forall_repeat. reflexivity.
Qed.

(** X2. Under a budget of at least one, the run of [getBalanceWithRetry]
    is a series of failed reads, each followed by a wait, then one last
    read whose answer decides the result: a balance is returned as soon as
    a read succeeds (every read before it failed, none follows it), and an
    error is thrown only when the failed reads used the whole budget, the
    thrown error being that of the last read. *)
Theorem getBalanceWithRetry_outcome (maxRetries : nat) (h : list Event)
    (r : JsError + JsVal) (evs : list Event) :
  0 < maxRetries ->
  Index.getBalanceWithRetry env publicKey maxRetries h = (r, evs) ->
  exists es last,
    evs = failed_attempts publicKey es ++ [EvGetBalance publicKey "confirmed" last]
    /\ r = outcome last
    /\ attempts_fail env publicKey h es
    /\ connection_getBalance env (h ++ failed_attempts publicKey es) publicKey
         "confirmed" = last
    /\ List.length es < maxRetries
    /\ (forall e, last = inl e -> S (List.length es) = maxRetries).
Proof.
  intros Hpos Hrun.
  destruct (@getBalanceWithRetry_loop_cases L env publicKey maxRetries maxRetries 0 h
              eq_refl Hpos)
    as (es & last & Hlen & Hfail & Hlast & Hend & Hshape).
  unfold Index.getBalanceWithRetry in Hrun. rewrite Hshape in Hrun.
  inversion Hrun. subst r evs.
  exists es, last. repeat split; try assumption.
  intros e He. destruct Hend as [[b Hb]|Hn]; [congruence | exact Hn].
Qed.

End RetryBudget.

(** Replace a run of the retrying reader by its shape, keeping how many
    reads failed. *)
Ltac invert_retry_counted env :=
  repeat match goal with
  | H : Index.getBalanceWithRetry env ?a Index.maxRetries_default ?h = (_, _) |- _ =>
      let es := fresh "es" in
      let r := fresh "r" in
      let Hlen := fresh "Hlen" in
      let Hend := fresh "Hend" in
      let Hrun := fresh "Hrun" in
      destruct (getBalanceWithRetry_cases env a h)
        as (es & r & Hlen & _ & _ & Hend & Hrun);
      rewrite Hrun in H; inversion H; clear H Hrun
  | H : BalanceHandler.getBalanceWithRetry env ?a BalanceHandler.maxRetries_default ?h
        = (_, _) |- _ =>
      change (BalanceHandler.getBalanceWithRetry env a BalanceHandler.maxRetries_default h)
        with (Index.getBalanceWithRetry env a Index.maxRetries_default h) in H
  | H : outcome ?r = inl _, Hend : (exists b, ?r = inr b) \/ _ |- _ =>
      destruct r; [|discriminate H]; inversion H; clear H;
      destruct Hend as [[? Hend]|Hend]; [discriminate Hend|]
  | H : outcome ?r = inr _, Hend : (exists b, ?r = inr b) \/ _ |- _ =>
      destruct r; [discriminate H|]; inversion H; clear H; clear Hend
  end.

(** As [invert_natural], keeping how many reads failed. *)
Ltac invert_natural_counted env :=
  repeat (first [ invert_run_step
                | progress invert_validator
                | progress invert_retry_counted env ]; subst).

(** Bring a log to the form [e1 :: ... ++ ...]. *)
Ltac normalize_log := cbn [app]; rewrite ?app_nil_r, <- ?app_assoc; cbn [app].

Section BalanceRoute.

Context {L : Libraries}.
Variable env : Env.

(** X3. The REST balance route never throws; a run is of one of three
    kinds.  The [PublicKey] constructor threw: 500 "Failed to fetch
    balance" with the constructor's message, and nothing was read.  The
    key was built and five reads failed: 500 "Failed to fetch balance"
    with the message of the fifth read's error.  The key was built and a
    read succeeded within five attempts: 200 with the key's text, the
    balance read and that balance divided by [LAMPORTS_PER_SOL]. *)
Theorem get_api_wallet_balance_answers (s : string) (h : list Event)
    (r : JsError + Response) (evs : list Event) :
  Index.get_api_wallet_balance env s h = (r, evs) ->
  (exists e,
     PublicKey_constructor (JStr s) = inl e
     /\ r = inr (answer_fetch_failed (message e))
     /\ evs = [EvNewPublicKey (JStr s) (inl e);
               EvConsoleError "Balance fetch error:" e])
  \/ (exists address es e,
        PublicKey_constructor (JStr s) = inr address
        /\ List.length es = 4
        /\ r = inr (answer_fetch_failed (message e))
        /\ evs = [EvNewPublicKey (JStr s) (inr address)]
                 ++ failed_attempts address es
                 ++ [EvGetBalance address "confirmed" (inl e);
                     EvConsoleError "Balance fetch error:" e])
  \/ (exists address es balance,
        PublicKey_constructor (JStr s) = inr address
        /\ List.length es < 5
        /\ r = inr (res_json
                      (JObj [ ("publicKey", JStr (PublicKey_toString address));
                              ("balanceInLamports", JNum balance);
                              ("balanceInSOL",
                               JNum (balance / LAMPORTS_PER_SOL)%float);
                              ("message", JStr "Balance fetched successfully") ]))
        /\ evs = [EvNewPublicKey (JStr s) (inr address)]
                 ++ failed_attempts address es
                 ++ [EvGetBalance address "confirmed" (inr balance)]).
Proof.
  unfold Index.get_api_wallet_balance, new_PublicKey, console_error.
  intros Hrun. invert_run; invert_retry_counted env; subst.
  - right. right. normalize_log. do 3 eexists.
    repeat split; [symmetry; eassumption | eassumption].
  - left. eexists. repeat split. symmetry. assumption.
  - right. left. normalize_log. do 3 eexists.
    repeat split; [symmetry; eassumption | eassumption].
Qed.

End BalanceRoute.

Section AirdropRoute.

Context {L : Libraries}.
Variable env : Env.

Lemma filter_failed_attempts (f : Event -> bool) (address : PublicKey)
    (es : list JsError) :
  (forall e, f (EvGetBalance address "confirmed" (inl e)) = false) ->
  f (EvSetTimeout 1000) = false ->
  filter f (failed_attempts address es) = [].
Proof.
  intros Hread Hwait. induction es as [|e es IH]; [reflexivity|].
  cbn. rewrite Hread, Hwait. exact IH.
Qed.

(** X4. The airdrop route never throws.  It answers 400 "Missing required
    parameters", calling nothing, exactly when [publicKey] or [amount]
    counts as false ([undefined], [null], [false], [0], [NaN], the empty
    string); in every other run it answers 200 or 500 and the first thing
    it does is to build the [PublicKey]. *)
Theorem post_api_wallet_airdrop_status (publicKey amount : JsVal) (h : list Event)
    (r : JsError + Response) (evs : list Event) :
  Index.post_api_wallet_airdrop env publicKey amount h = (r, evs) ->
  exists resp,
    r = inr resp
    /\ ((ToBoolean publicKey && ToBoolean amount = false
         /\ resp = answer_missing_parameters /\ evs = [])
        \/ (ToBoolean publicKey && ToBoolean amount = true
            /\ (status resp = 200%Z \/ status resp = 500%Z)
            /\ exists key rest,
                 key = PublicKey_constructor publicKey
                 /\ evs = EvNewPublicKey publicKey key :: rest)).
Proof.
  unfold_airdrop. intros Hrun.
  invert_run; invert_retry env; subst; eexists; (split; [reflexivity|]).
  all: match goal with
       | H : negb (ToBoolean _) || negb (ToBoolean _) = true |- _ =>
           rewrite <- negb_andb in H; apply negb_true_iff in H
       | H : negb (ToBoolean _) || negb (ToBoolean _) = false |- _ =>
           rewrite <- negb_andb in H; apply negb_false_iff in H
       end.
  all: first [ left; repeat split; assumption
             | right; split; [assumption|];
               split; [first [left; reflexivity | right; reflexivity]|];
               normalize_log; do 2 eexists; split; [|reflexivity];
               first [assumption | symmetry; assumption] ].
Qed.

(** X5. A run of the airdrop route submits to the faucet at most once and
    waits for at most one confirmation, never more confirmations than
    submissions (nothing is retried); what it submits is the address
    built from [publicKey] and [amount * LAMPORTS_PER_SOL] lamports. *)
Theorem post_api_wallet_airdrop_single_submission (publicKey amount : JsVal)
    (h : list Event) (r : JsError + Response) (evs : list Event) :
  Index.post_api_wallet_airdrop env publicKey amount h = (r, evs) ->
  List.length (airdrop_requests evs) <= 1
  /\ List.length (confirmations evs) <= List.length (airdrop_requests evs)
  /\ (forall address lamports answer,
        In (EvRequestAirdrop address lamports answer) evs ->
        PublicKey_constructor publicKey = inr address
        /\ lamports = js_mul amount (JNum LAMPORTS_PER_SOL)).
Proof.
  unfold_airdrop. intros Hrun.
  invert_run; invert_retry env; subst.
  all: unfold airdrop_requests, confirmations;
    rewrite ?filter_app, ?filter_failed_attempts by (intros; reflexivity);
    cbn [filter app List.length].
  all: (split; [lia | split; [lia|]]).
  all: intros ? ? ? Hin; split_In; event_eq; split; congruence.
Qed.

(** X6. In a run of the airdrop route, the submission to the faucet comes
    right after the key was built and the initial balance was read with
    success; and a confirmation is only awaited, at commitment
    "confirmed", for the signature that this submission returned. *)
Theorem post_api_wallet_airdrop_order (publicKey amount : JsVal)
    (h : list Event) (r : JsError + Response) (evs : list Event) :
  Index.post_api_wallet_airdrop env publicKey amount h = (r, evs) ->
  (forall address lamports answer,
     In (EvRequestAirdrop address lamports answer) evs ->
     exists es initial after,
       evs = [EvNewPublicKey publicKey (inr address)]
             ++ failed_attempts address es
             ++ [ EvGetBalance address "confirmed" (inr initial);
                  EvRequestAirdrop address lamports answer ]
             ++ after)
  /\ (forall signature commitment answer,
        In (EvConfirmTransaction signature commitment answer) evs ->
        commitment = "confirmed"
        /\ exists before address lamports after,
             evs = before
                   ++ [ EvRequestAirdrop address lamports (inr signature);
                        EvConfirmTransaction signature commitment answer ]
                   ++ after).
Proof.
  unfold_airdrop. intros Hrun.
  invert_run; invert_retry env; subst; split.
  all: intros ? ? ? Hin; split_In; event_eq.
  all: try (split; [reflexivity|]).
  all: normalize_log.
  all: try solve [do 3 eexists; cbn [app]; reflexivity].
  all: match goal with
       | |- exists before address lamports after,
              ?n :: ?fa ++ ?g :: EvRequestAirdrop ?a ?l _ :: ?ct :: ?rest = _ =>
           exists (n :: fa ++ [g]), a, l, rest
       end; cbn [app]; f_equal; exact (app_assoc _ [_] _).
Qed.

(** X7. When the faucet refuses the submission, the airdrop route answers
    500 "Airdrop failed" with the faucet's message as it is, and stops:
    no confirmation is awaited, the refusal is followed by the console
    report only. *)
Theorem post_api_wallet_airdrop_faucet_failure (publicKey amount : JsVal)
    (h : list Event) (r : JsError + Response) (evs : list Event)
    (address : PublicKey) (lamports : JsVal) (e : JsError) :
  Index.post_api_wallet_airdrop env publicKey amount h = (r, evs) ->
  In (EvRequestAirdrop address lamports (inl e)) evs ->
  r = inr (answer_airdrop_failed (message e))
  /\ confirmations evs = []
  /\ exists before,
       evs = before ++ [ EvRequestAirdrop address lamports (inl e);
                         EvConsoleError "Airdrop error:" e ].
Proof.
  unfold_airdrop. intros Hrun Hin.
  invert_run; invert_retry env; subst; split_In; event_eq.
  all: try congruence.
  split; [reflexivity | split].
  - unfold confirmations.
    rewrite ?filter_app, ?filter_failed_attempts by (intros; reflexivity).
    reflexivity.
  - normalize_log.
    match goal with
    | |- exists before, ?n :: ?fa ++ [?g; ?ra; ?c] = _ => exists (n :: fa ++ [g])
    end.
    normalize_log. reflexivity.
Qed.

(** X8. When waiting for the confirmation throws, the airdrop route
    answers 500 "Airdrop failed" with the message "Transaction
    confirmation failed: " followed by the thrown message, and neither
    waits the two seconds nor reads the balance again. *)
Theorem post_api_wallet_airdrop_confirmation_throws (publicKey amount : JsVal)
    (h : list Event) (r : JsError + Response) (evs : list Event)
    (signature commitment : string) (e : JsError) :
  Index.post_api_wallet_airdrop env publicKey amount h = (r, evs) ->
  In (EvConfirmTransaction signature commitment (inl e)) evs ->
  let cause := String.append "Transaction confirmation failed: " (message e) in
  r = inr (answer_airdrop_failed cause)
  /\ (exists before,
        evs = before ++ [ EvConfirmTransaction signature commitment (inl e);
                          EvConsoleError "Airdrop error:" (new_Error cause) ])
  /\ ~ In (EvSetTimeout 2000) evs.
Proof.
  unfold_airdrop. intros Hrun Hin.
  invert_run; invert_retry env; subst; split_In; event_eq.
  all: try congruence.
  split; [reflexivity | split].
  - normalize_log.
    match goal with
    | |- exists before, ?n :: ?fa ++ [?g; ?ra; ?c1; ?c2] = _ =>
        exists (n :: fa ++ [g; ra])
    end.
    normalize_log. reflexivity.
  - intros Hst. split_In; event_eq.
Qed.

(** X9. Once the route has waited its two seconds, the transaction was
    confirmed without error; still the answer depends on the second
    balance read: if that read fails five times the route answers 500
    "Airdrop failed" with the message of the fifth error, although the
    airdrop went through; otherwise it answers 200. *)
Theorem post_api_wallet_airdrop_after_confirmation (publicKey amount : JsVal)
    (h : list Event) (r : JsError + Response) (evs : list Event) :
  Index.post_api_wallet_airdrop env publicKey amount h = (r, evs) ->
  In (EvSetTimeout 2000) evs ->
  (exists signature confirmation,
     In (EvConfirmTransaction signature "confirmed" (inr confirmation)) evs
     /\ ToBoolean (value_err confirmation) = false)
  /\ ((exists resp, r = inr resp /\ status resp = 200%Z)
      \/ (exists address es e before,
            List.length es = 4
            /\ r = inr (answer_airdrop_failed (message e))
            /\ evs = before
                     ++ [EvSetTimeout 2000]
                     ++ failed_attempts address es
                     ++ [ EvGetBalance address "confirmed" (inl e);
                          EvConsoleError "Airdrop error:" e ])).
Proof.
  unfold_airdrop. intros Hrun Hin.
  invert_run; invert_retry_counted env; subst; split_In; event_eq.
  all: normalize_log.
  - split.
    + do 2 eexists. split; [|eassumption].
      apply in_cons, in_or_app. right. do 2 right. left. reflexivity.
    + left. eexists. split; reflexivity.
  - split.
    + do 2 eexists. split; [|eassumption].
      apply in_cons, in_or_app. right. do 2 right. left. reflexivity.
    + right. normalize_log.
      do 4 eexists. split; [eassumption|]. split; [reflexivity|].
      match goal with
      | |- ?n :: ?fa ++ ?g :: ?ra :: ?c :: ?rest = ?before ++ _ =>
          unify before (n :: fa ++ [g; ra; c])
      end.
      cbn [app]. f_equal. exact (app_assoc _ [_; _; _] _).
Qed.

End AirdropRoute.

(** As [event_eq], leaving the goal untouched. *)
Ltac event_inj :=
  repeat match goal with
  | H : @eq Event _ _ |- _ =>
      first [discriminate H | injection H; clear H; intros; subst]
  end.

(** The events of a log before the construction of the key. *)
Ltac prefix_before l :=
  lazymatch l with
  | ?x :: (EvNewPublicKey _ _ :: _) => constr:([x])
  | ?x :: ?rest => let p := prefix_before rest in constr:(x :: p)
  end.

Section NaturalRoute.

Context {L : Libraries}.
Variable env : Env.

(** X10. The natural-language route never throws and answers 200, 400 or
    500.  A query that counts as false (absent, empty string, [null],
    [0], ...) is answered 400 "Missing query parameter" before anything
    is called; in every other run the first call is the model, on the
    prompt built from the query. *)
Theorem handleBalanceQuery_answers (query : JsVal) (h : list Event)
    (r : JsError + Response) (evs : list Event) :
  BalanceHandler.handleBalanceQuery env query h = (r, evs) ->
  exists resp,
    r = inr resp
    /\ (status resp = 200%Z \/ status resp = 400%Z \/ status resp = 500%Z)
    /\ ((ToBoolean query = false /\ resp = answer_missing_query /\ evs = [])
        \/ (ToBoolean query = true
            /\ exists answer rest,
                 evs = EvModelInvoke (promptTemplate_format query) answer :: rest)).
Proof.
  unfold_natural. intros Hrun.
  invert_natural env; eexists; (split; [reflexivity|]).
  all: match goal with
       | H : negb (ToBoolean _) = true |- _ => apply negb_true_iff in H
       | H : negb (ToBoolean _) = false |- _ => apply negb_false_iff in H
       end.
  all: split; [cbn; auto|].
  all: first [ left; repeat split; assumption
             | right; split; [assumption|]; normalize_log;
               do 2 eexists; reflexivity ].
Qed.

(** X11. When the call to the model throws, the natural-language route
    answers 500 "Processing failed" with the thrown message, and the run
    holds nothing but that call and the console report: no parse, no
    validator, no ledger. *)
Theorem handleBalanceQuery_model_failure (query : JsVal) (h : list Event)
    (r : JsError + Response) (evs : list Event) (prompt : string) (e : JsError) :
  BalanceHandler.handleBalanceQuery env query h = (r, evs) ->
  In (EvModelInvoke prompt (inl e)) evs ->
  r = inr (answer_processing_failed (message e))
  /\ evs = [ EvModelInvoke prompt (inl e);
             EvConsoleError "Natural language processing error:" e ].
Proof.
  unfold_natural. intros Hrun Hin.
  invert_natural env; split_In; event_eq; try congruence.
  split; reflexivity.
Qed.

(** X12. Once the validator has accepted the extracted address, a failure
    is answered 400 "Balance fetch failed" with the underlying message and
    is not reported to the console: either the [PublicKey] constructor
    threw on that address, and the ledger was not called, or the key was
    built and the balance read failed five times, the message being that
    of the fifth error. *)
Theorem handleBalanceQuery_fetch_failed (query : JsVal) (h : list Event)
    (resp : Response) (evs : list Event) (s : string) :
  BalanceHandler.handleBalanceQuery env query h = (inr resp, evs) ->
  In (EvIsPotentiallySolanaAddress s true) evs ->
  status resp <> 200%Z ->
  exists e before,
    resp = answer_balance_fetch_failed (message e)
    /\ console_reports evs = []
    /\ ((evs = before ++ [EvNewPublicKey (JStr s) (inl e)]
         /\ Forall (fun ev => is_rpc ev = false) evs)
        \/ (exists address es,
              List.length es = 4
              /\ evs = before
                       ++ [EvNewPublicKey (JStr s) (inr address)]
                       ++ failed_attempts address es
                       ++ [EvGetBalance address "confirmed" (inl e)])).
Proof.
  unfold_natural. intros Hrun Hin Hstatus.
  invert_natural_counted env; subst; split_In; event_inj;
    try congruence.
  all: try (exfalso; apply Hstatus; reflexivity).
  all: try match goal with
       | H1 : negb ?b = true, H2 : ?b = true |- _ =>
           rewrite H2 in H1; discriminate H1
       end.
  all: normalize_log.
  all: do 2 eexists; (split; [reflexivity|]).
  all: split;
    [ unfold console_reports; cbn [filter];
      rewrite ?filter_app, ?filter_failed_attempts by (intros; reflexivity);
      reflexivity |].
  all: match goal with
       | |- (?l = ?before ++ _ /\ _) \/ _ =>
           let p := prefix_before l in unify before p
       end.
  all: first [ left; split; [reflexivity | repeat constructor]
             | right; do 2 eexists; split; [eassumption|];
               cbn [app]; reflexivity ].
Qed.

(** X13. A 200 answer of the natural-language route is either
    "needs_address" or "success"; a success means that the validator
    accepted the extracted address, the key was built from it, a balance
    read succeeded within five attempts, and the body carries the key's
    text, the balance read and that balance divided by 10^9. *)
Theorem handleBalanceQuery_success (query : JsVal) (h : list Event)
    (resp : Response) (evs : list Event) :
  BalanceHandler.handleBalanceQuery env query h = (inr resp, evs) ->
  status resp = 200%Z ->
  resp = answer_needs_address
  \/ (exists s address es balance before,
        isPotentiallySolanaAddress s = true
        /\ PublicKey_constructor (JStr s) = inr address
        /\ List.length es < 5
        /\ evs = before
                 ++ [ EvIsPotentiallySolanaAddress s true;
                      EvNewPublicKey (JStr s) (inr address) ]
                 ++ failed_attempts address es
                 ++ [EvGetBalance address "confirmed" (inr balance)]
        /\ resp = res_json
                    (JObj [ ("status", JStr "success");
                            ("publicKey", JStr (PublicKey_toString address));
                            ("balanceInLamports", JNum balance);
                            ("balanceInSOL",
                             JNum (balance / 1000000000)%float);
                            ("message", JStr "Balance fetched successfully") ])).
Proof.
  unfold_natural. intros Hrun Hstatus.
  invert_natural_counted env; subst; try discriminate Hstatus.
  all: try (left; reflexivity).
  all: right.
  all: match goal with
       | H : negb (isPotentiallySolanaAddress ?s) = false |- _ =>
           apply negb_false_iff in H; rewrite H
       end.
  all: normalize_log.
  all: match goal with
       | H : isPotentiallySolanaAddress ?s = true |- _ => exists s
       end.
  all: do 4 eexists.
  all: split; [assumption|].
  all: split; [symmetry; eassumption|].
  all: split; [eassumption|].
  all: split; [|reflexivity].
  all: match goal with
       | |- ?a :: ?b :: ?v :: EvNewPublicKey _ _ :: _ = ?before ++ _ =>
           unify before [a; b]
       | |- ?a :: ?b :: ?c :: ?d :: ?v :: EvNewPublicKey _ _ :: _ = ?before ++ _ =>
           unify before [a; b; c; d]
       end.
  all: cbn [app]; reflexivity.
Qed.

(** X14. The natural-language route builds a [PublicKey] only from a
    string that the validator has accepted, and in such a run the
    validator ran exactly once. *)
Theorem handleBalanceQuery_constructs_accepted_only (query : JsVal)
    (h : list Event) (r : JsError + Response) (evs : list Event)
    (value : JsVal) (answer : JsError + PublicKey) :
  BalanceHandler.handleBalanceQuery env query h = (r, evs) ->
  In (EvNewPublicKey value answer) evs ->
  exists s,
    value = JStr s
    /\ isPotentiallySolanaAddress s = true
    /\ In (EvIsPotentiallySolanaAddress s true) evs
    /\ List.length (filter is_validation evs) = 1.
Proof.
  unfold_natural. intros Hrun Hin.
  invert_natural env; split_In; event_inj.
  all: match goal with
       | H : negb (isPotentiallySolanaAddress ?s) = false |- _ =>
           apply negb_false_iff in H; rewrite H; exists s
       end.
  all: split; [reflexivity|]; split; [assumption|]; split.
  all: try (rewrite ?filter_app, ?filter_failed_attempts by (intros; reflexivity);
            reflexivity).
  all: normalize_log; cbn [In]; auto 8.
Qed.

End NaturalRoute.

(** ** The validator on arbitrary code units *)

Lemma address_class_bound (u : N) :
  RegExp.class_matches address_class u = true -> (u < 256)%N.
Proof.
  unfold RegExp.class_matches, address_class. cbn.
  rewrite !orb_true_iff, !andb_true_iff, !N.leb_le. lia.
Qed.

Lemma address_class_units (u : N) :
  RegExp.class_matches address_class u = true <->
  In u (code_units base58_alphabet).
Proof.
  unfold code_units. rewrite in_map_iff. split.
  - intros Hclass. exists (ascii_of_N u).
    pose proof (N_ascii_embedding u (address_class_bound u Hclass)) as Hemb.
    split; [exact Hemb|].
    apply in_base58_alphabet_In. rewrite <- address_class_is_base58.
    unfold cu. rewrite Hemb. exact Hclass.
  - intros [a [Hcode Hin]]. subst u.
    change (N_of_ascii a) with (cu a). rewrite address_class_is_base58.
    apply in_base58_alphabet_In. exact Hin.
Qed.

(** X15. On a string given as UTF-16 code units of any size (characters
    outside Latin-1 included), the validator's pattern matches exactly the
    lists of 32 to 44 code units each of which is the code of one of the
    58 characters of the alphabet. *)
Theorem address_pattern_on_code_units (units : list N) :
  RegExp.test address_pattern units = true <->
  32 <= List.length units <= 44
  /\ (forall u, In u units -> In u (code_units base58_alphabet)).
Proof.
  unfold address_pattern. rewrite test_anchored_class by lia.
  rewrite forallb_forall. split.
  - intros [Hlen Hall]. split; [exact Hlen|].
    intros u Hu. apply address_class_units, Hall, Hu.
  - intros [Hlen Hall]. split; [exact Hlen|].
    intros u Hu. apply address_class_units, Hall, Hu.
Qed.

(** ** The chat widget *)

Section WidgetFacts.

Import WalletChat.
Context {B : Browser}.

Lemma trimStart_units_nil (l : list ascii) :
  trimStart_units l = [] <->
  forallb (fun c => is_WhiteSpace (N_of_ascii c)) l = true.
Proof.
  induction l as [|c l IH]; [split; reflexivity|].
  cbn [trimStart_units forallb].
  destruct (is_WhiteSpace (N_of_ascii c)); [exact IH|].
  split; discriminate.
Qed.

Lemma string_of_list_ascii_nil (l : list ascii) :
  string_of_list_ascii l = "" <-> l = [].
Proof. destruct l; split; intros H; try reflexivity; discriminate H. Qed.

Lemma forallb_rev {A : Type} (f : A -> bool) (l : list A) :
  forallb f (rev l) = forallb f l.
Proof.
  apply eq_true_iff_eq. rewrite !forallb_forall.
  split; intros H x Hx; apply H; [apply in_rev in Hx | apply in_rev]; assumption.
Qed.

Lemma trimStart_units_suffix (l : list ascii) :
  exists removed,
    l = removed ++ trimStart_units l
    /\ forallb (fun c => is_WhiteSpace (N_of_ascii c)) removed = true.
Proof.
  induction l as [|c l [removed [Heq Hws]]]; [exists []; split; reflexivity|].
  cbn [trimStart_units].
  destruct (is_WhiteSpace (N_of_ascii c)) eqn:Hc.
  - exists (c :: removed). cbn. rewrite Hc, Hws. split; [f_equal; exact Heq | reflexivity].
  - exists []. split; reflexivity.
Qed.

(** [trim] gives the empty string exactly on the strings made of white
    space. *)
Lemma trim_empty_iff (s : string) :
  trim s = "" <->
  forallb (fun c => is_WhiteSpace (N_of_ascii c)) (list_ascii_of_string s) = true.
Proof.
  unfold trim. rewrite string_of_list_ascii_nil.
  set (l := list_ascii_of_string s).
  destruct (trimStart_units_suffix l) as [removed [Heq Hws]].
  split.
  - intros Hnil.
    assert (Hrev : rev (rev (trimStart_units (rev (trimStart_units l)))) = rev []).
    { rewrite Hnil. reflexivity. }
    rewrite rev_involutive in Hrev. cbn in Hrev.
    apply trimStart_units_nil in Hrev. rewrite forallb_rev in Hrev.
    rewrite Heq, forallb_app, Hws, Hrev. reflexivity.
  - intros Hall. apply trimStart_units_nil in Hall. rewrite Hall. reflexivity.
Qed.

(** X16. [handleSubmit] on an input made of white space only (the empty
    input included) leaves the state as it is and posts nothing; on any
    other input it posts exactly one query, the input as typed (not
    trimmed), and the list of messages changes. *)
Theorem handleSubmit_blank_input (post : string -> JsError + JsVal) (st : State) :
  ((forall c, In c (list_ascii_of_string (inputValue st)) ->
              is_WhiteSpace (N_of_ascii c) = true) ->
   handleSubmit post st = (st, []))
  /\ ((exists c, In c (list_ascii_of_string (inputValue st))
                 /\ is_WhiteSpace (N_of_ascii c) = false) ->
      snd (handleSubmit post st) = [inputValue st]
      /\ messages (fst (handleSubmit post st)) <> messages st).
Proof.
  unfold handleSubmit. cbn [ToBoolean]. rewrite negb_involutive.
  split.
  - intros Hall.
    assert (Hblank : trim (inputValue st) = "").
    { apply trim_empty_iff, forallb_forall. exact Hall. }
    rewrite Hblank. reflexivity.
  - intros [c [Hin Hc]].
    destruct (String.eqb_spec (trim (inputValue st)) "") as [Hblank|Hsome].
    + apply trim_empty_iff in Hblank. rewrite forallb_forall in Hblank.
      rewrite (Hblank c Hin) in Hc. discriminate Hc.
    + cbn [fst snd messages]. split; [reflexivity|].
      intros Heq. apply (f_equal (@List.length Message)) in Heq.
      rewrite !length_app in Heq. cbn in Heq. lia.
Qed.

End WidgetFacts.

Section WidgetSession.

Import WalletChat.
Context {B : Browser}.

(** X17. Over any series of typing and submitting, the list of messages
    only grows, by one exchange per posted query: after the messages it
    started with come, in order, each posted query as a "user" message
    directly followed by exactly one "bot" message; no posted query is
    blank; and between actions [isLoading] stays false. *)
Theorem session_transcript (post : string -> JsError + JsVal)
    (actions : list Action) (st : State) :
  exists replies,
    List.length replies = List.length (snd (session post actions st))
    /\ messages (fst (session post actions st))
       = messages st
         ++ flat_map exchange (combine (snd (session post actions st)) replies)
    /\ Forall (fun query => trim query <> "") (snd (session post actions st))
    /\ (isLoading st = false -> isLoading (fst (session post actions st)) = false).
Proof.
  revert st. induction actions as [|a rest IH]; intros st.
  - exists []. cbn. rewrite app_nil_r. repeat split; solve [auto | constructor].
  - cbn [session].
    destruct (act post a st) as [st1 posted1] eqn:Hact.
    specialize (IH st1).
    destruct (session post rest st1) as [st2 posted2] eqn:Hrest.
    cbn [fst snd] in *.
    destruct IH as [replies [Hlen [Hmsgs [Hposted Hload]]]].
    destruct a as [value|]; cbn [act] in Hact.
    + inversion Hact. subst st1 posted1. cbn [app].
      exists replies. repeat split; try assumption.
    + unfold handleSubmit in Hact. cbn [ToBoolean] in Hact.
      rewrite negb_involutive in Hact.
      destruct (String.eqb_spec (trim (inputValue st)) "") as [Hblank|Hsome].
      * inversion Hact. subst st1 posted1. cbn [app].
        exists replies. repeat split; try assumption.
      * inversion Hact. subst posted1. clear Hact.
        match type of H0 with
        | {| messages := _ ++ [ {| type := _; content := ?reply |} ];
             inputValue := _; isLoading := _ |} = _ =>
            exists (reply :: replies)
        end.
        subst st1. cbn [messages isLoading] in *.
        cbn [app combine flat_map exchange fst snd List.length].
        repeat split.
        -- rewrite Hlen. reflexivity.
        -- rewrite Hmsgs, <- !app_assoc. reflexivity.
        -- constructor; assumption.
        -- intros _. apply Hload. reflexivity.
Qed.

End WidgetSession.

Section WidgetReplies.

Import WalletChat.
Context {B : Browser}.

Lemma slice_first_four {A : Type} (l : list A) :
  slice l 0 (Some 4%Z) = firstn 4 l.
Proof.
  unfold slice, relative_index. cbn [Z.ltb Z.compare Z.to_nat].
  rewrite Nat.min_0_l, Nat.sub_0_r. cbn [skipn].
  change (Pos.to_nat 4) with 4.
  destruct (Nat.le_gt_cases 4 (List.length l)) as [Hlong|Hshort].
  - rewrite Nat.min_l by exact Hlong. reflexivity.
  - rewrite Nat.min_r by lia. rewrite !firstn_all2 by lia. reflexivity.
Qed.

Lemma slice_last_four {A : Type} (l : list A) :
  slice l (-4) None = skipn (List.length l - 4) l.
Proof.
  unfold slice, relative_index. cbn [Z.ltb Z.compare].
  replace (Z.to_nat (Z.max (Z.of_nat (List.length l) + -4) 0))
    with (List.length l - 4) by lia.
  apply firstn_all2. rewrite length_skipn. lia.
Qed.


End WidgetReplies.

Section WidgetAndServer.

Import WalletChat.
Context {L : Libraries} {B : Browser}.
Variable env : Env.

Lemma length_list_ascii_of_string (s : string) :
  List.length (list_ascii_of_string s) = String.length s.
Proof. induction s as [|c s IH]; [reflexivity | cbn; rewrite IH; reflexivity]. Qed.

Lemma call_slice_key (key : string) :
  call_slice (JStr key) 0 (Some 4%Z) = inr (JStr (first_four key))
  /\ call_slice (JStr key) (-4) None = inr (JStr (last_four key)).
Proof.
  unfold call_slice, first_four, last_four.
  rewrite slice_first_four, slice_last_four, length_list_ascii_of_string.
  split; reflexivity.
Qed.

Lemma botMessage_success (key : string) (lamports sol : JsVal) (text : string) :
  botMessage
    (JObj [ ("status", JStr "success"); ("publicKey", JStr key);
            ("balanceInLamports", lamports); ("balanceInSOL", sol);
            ("message", JStr text) ])
  = inr ("The wallet " ++ first_four key ++ "..." ++ last_four key
         ++ " has a balance of " ++ formatBalance sol ++ " SOL")%string.
Proof.
  unfold botMessage. cbn [get_property own_property fold_left fst snd].
  cbn [String.eqb Ascii.eqb Bool.eqb strict_equals_string].
  destruct (call_slice_key key) as [Hhead Htail]. rewrite Hhead, Htail.
  reflexivity.
Qed.

Lemma botMessage_error (label text : string) (key : string) :
  key = "error" ->
  botMessage (JObj [ (key, JStr label); ("message", JStr text) ])
  = inr ("Error: " ++ (if (text =? "")%string then "Something went wrong" else text))%string.
Proof.
  intros ->. unfold botMessage. cbn [get_property own_property fold_left fst snd].
  cbn [String.eqb Ascii.eqb Bool.eqb strict_equals_string ToBoolean].
  destruct (text =? "")%string; reflexivity.
Qed.

(** X19. The widget on the answers of the natural-language route.  The
    reply computed from the body of any answer of the route never throws:
    for "needs_address" it is the request for an address; for a success
    it names the key by its first four and last four characters with the
    formatted balance in SOL; for every 400 or 500 answer it is "Error: "
    followed by the answer's [message], or by "Something went wrong" when
    that message is empty. *)
Theorem botMessage_of_server_answer (query : JsVal) (h : list Event)
    (r : JsError + Response) (evs : list Event) :
  BalanceHandler.handleBalanceQuery env query h = (r, evs) ->
  exists resp,
    r = inr resp
    /\ ((resp = answer_needs_address
         /\ botMessage (body resp) = inr needs_address_text)
        \/ (exists address balance,
              status resp = 200%Z
              /\ In (EvGetBalance address "confirmed" (inr balance)) evs
              /\ botMessage (body resp)
                 = inr ("The wallet "
                        ++ first_four (PublicKey_toString address) ++ "..."
                        ++ last_four (PublicKey_toString address)
                        ++ " has a balance of "
                        ++ formatBalance (JNum (balance / 1000000000)%float)
                        ++ " SOL")%string)
        \/ (exists text,
              (status resp = 400%Z \/ status resp = 500%Z)
              /\ get_property (body resp) "message" = inr (JStr text)
              /\ botMessage (body resp)
                 = inr ("Error: "
                        ++ (if (text =? "")%string then "Something went wrong"
                            else text))%string)).
Proof.
  unfold_natural. intros Hrun.
  invert_natural env; invert_retry env; subst; eexists; (split; [reflexivity|]).
  all: try solve [left; split; reflexivity].
  all: try solve [ right; right; eexists; split; [cbn; auto|];
                   split; [reflexivity|]; cbn [body res_status_json];
                   apply botMessage_error; reflexivity ].
  all: right; left; do 2 eexists; split; [reflexivity|]; split;
    [| cbn [body res_json]; apply botMessage_success].
  all: normalize_log; cbn [In]; rewrite ?in_app_iff; cbn [In]; auto 12.
Qed.

End WidgetAndServer.

Section WidgetQueries.

Import WalletChat.
Context {L : Libraries} {B : Browser}.
Variable env : Env.

(** X20. Every query the widget posts, in any session, gets to the model:
    the natural-language route never answers it "Missing query
    parameter", and the first call of the run is the model on the prompt
    built from that query. *)
Theorem posted_queries_reach_the_model (post : string -> JsError + JsVal)
    (actions : list Action) (st : State) (query : string) (h : list Event)
    (r : JsError + Response) (evs : list Event) :
  In query (snd (session post actions st)) ->
  BalanceHandler.handleBalanceQuery env (JStr query) h = (r, evs) ->
  r <> inr answer_missing_query
  /\ exists answer rest,
       evs = EvModelInvoke (promptTemplate_format (JStr query)) answer :: rest.
Proof.
  intros Hposted Hrun.
  destruct (session_transcript post actions st) as [replies [_ [_ [Hnonblank _]]]].
  rewrite Forall_forall in Hnonblank. specialize (Hnonblank query Hposted).
  assert (Htruthy : ToBoolean (JStr query) = true).
  { cbn. destruct (String.eqb_spec query "") as [->|]; [|reflexivity].
    exfalso. apply Hnonblank. reflexivity. }
  destruct (handleBalanceQuery_answers env (JStr query) h Hrun)
    as [resp [-> [_ [[Hfalsy _]|[_ [answer [rest ->]]]]]]].
  - rewrite Htruthy in Hfalsy. discriminate Hfalsy.
  - split; [|exists answer, rest; reflexivity].
    intros Heq. inversion Heq. subst resp.
    revert Hrun. unfold_natural. intros Hrun.
    invert_natural env; discriminate.
Qed.

End WidgetQueries.

(** ** The further properties at work on the stubs *)

Section MoreWitnesses.

#[local] Existing Instance Demo.libs.
#[local] Existing Instance demo_browser.

(** X1 on the dead node, with a budget of three. *)
Lemma getBalanceWithRetry_budget_witness :
  let run := Index.getBalanceWithRetry dead_node Demo.address 3 [] in
  List.length (balance_reads (snd run)) <= 3
  /\ List.length (delays (snd run)) = List.length (balance_reads (snd run)) - 1
  /\ Forall (fun ms => ms = 1000%Z) (delays (snd run))
  /\ (3 = 0 -> fst run = inr JUndefined /\ snd run = []).
Proof.
  cbv zeta.
  apply (@getBalanceWithRetry_budget Demo.libs dead_node Demo.address 3 [] _ _
           (surjective_pairing _)).
Defined.

(** X2 on the flaky node. *)
Lemma getBalanceWithRetry_outcome_witness :
  let run := Index.getBalanceWithRetry flaky_node Demo.address 5 [] in
  exists es last,
    snd run
    = failed_attempts Demo.address es ++ [EvGetBalance Demo.address "confirmed" last]
    /\ fst run = outcome last
    /\ attempts_fail flaky_node Demo.address [] es
    /\ connection_getBalance flaky_node ([] ++ failed_attempts Demo.address es)
         Demo.address "confirmed" = last
    /\ List.length es < 5
    /\ (forall e, last = inl e -> S (List.length es) = 5).
Proof.
  cbv zeta.
  apply (@getBalanceWithRetry_outcome Demo.libs flaky_node Demo.address 5 [] _ _
           (Nat.lt_0_succ 4) (surjective_pairing _)).
Defined.

(** X3 on a well-formed address in front of the healthy node. *)
Lemma get_api_wallet_balance_answers_witness :
  let s := Demo.address in
  let run := Index.get_api_wallet_balance healthy_node s [] in
  (exists e,
     PublicKey_constructor (JStr s) = inl e
     /\ fst run = inr (answer_fetch_failed (message e))
     /\ snd run = [EvNewPublicKey (JStr s) (inl e);
                   EvConsoleError "Balance fetch error:" e])
  \/ (exists address es e,
        PublicKey_constructor (JStr s) = inr address
        /\ List.length es = 4
        /\ fst run = inr (answer_fetch_failed (message e))
        /\ snd run = [EvNewPublicKey (JStr s) (inr address)]
                     ++ failed_attempts address es
                     ++ [EvGetBalance address "confirmed" (inl e);
                         EvConsoleError "Balance fetch error:" e])
  \/ (exists address es balance,
        PublicKey_constructor (JStr s) = inr address
        /\ List.length es < 5
        /\ fst run
           = inr (res_json
                    (JObj [ ("publicKey", JStr (PublicKey_toString address));
                            ("balanceInLamports", JNum balance);
                            ("balanceInSOL",
                             JNum (balance / LAMPORTS_PER_SOL)%float);
                            ("message", JStr "Balance fetched successfully") ]))
        /\ snd run = [EvNewPublicKey (JStr s) (inr address)]
                     ++ failed_attempts address es
                     ++ [EvGetBalance address "confirmed" (inr balance)]).
Proof.
  cbv zeta.
  apply (@get_api_wallet_balance_answers Demo.libs healthy_node Demo.address [] _ _
           (surjective_pairing _)).
Defined.

(** X4 on a request without amount. *)
Lemma post_api_wallet_airdrop_status_witness :
  let publicKey := JStr Demo.address in
  let amount := JUndefined in
  let run := Index.post_api_wallet_airdrop healthy_node publicKey amount [] in
  exists resp,
    fst run = inr resp
    /\ ((ToBoolean publicKey && ToBoolean amount = false
         /\ resp = answer_missing_parameters /\ snd run = [])
        \/ (ToBoolean publicKey && ToBoolean amount = true
            /\ (status resp = 200%Z \/ status resp = 500%Z)
            /\ exists key rest,
                 key = PublicKey_constructor publicKey
                 /\ snd run = EvNewPublicKey publicKey key :: rest)).
Proof.
  cbv zeta.
  apply (@post_api_wallet_airdrop_status Demo.libs healthy_node (JStr Demo.address)
           JUndefined [] _ _ (surjective_pairing _)).
Defined.

(** X5 on the healthy node. *)
Lemma post_api_wallet_airdrop_single_submission_witness :
  let run :=
    Index.post_api_wallet_airdrop healthy_node (JStr Demo.address) (JNum 1%float) [] in
  List.length (airdrop_requests (snd run)) <= 1
  /\ List.length (confirmations (snd run)) <= List.length (airdrop_requests (snd run))
  /\ (forall address lamports answer,
        In (EvRequestAirdrop address lamports answer) (snd run) ->
        PublicKey_constructor (JStr Demo.address) = inr address
        /\ lamports = js_mul (JNum 1%float) (JNum LAMPORTS_PER_SOL)).
Proof.
  cbv zeta.
  apply (@post_api_wallet_airdrop_single_submission Demo.libs healthy_node
           (JStr Demo.address) (JNum 1%float) [] _ _ (surjective_pairing _)).
Defined.

(** X6 on the healthy node. *)
Lemma post_api_wallet_airdrop_order_witness :
  let run :=
    Index.post_api_wallet_airdrop healthy_node (JStr Demo.address) (JNum 1%float) [] in
  (forall address lamports answer,
     In (EvRequestAirdrop address lamports answer) (snd run) ->
     exists es initial after,
       snd run
       = [EvNewPublicKey (JStr Demo.address) (inr address)]
         ++ failed_attempts address es
         ++ [ EvGetBalance address "confirmed" (inr initial);
              EvRequestAirdrop address lamports answer ]
         ++ after)
  /\ (forall signature commitment answer,
        In (EvConfirmTransaction signature commitment answer) (snd run) ->
        commitment = "confirmed"
        /\ exists before address lamports after,
             snd run
             = before
               ++ [ EvRequestAirdrop address lamports (inr signature);
                    EvConfirmTransaction signature commitment answer ]
               ++ after).
Proof.
  cbv zeta.
  apply (@post_api_wallet_airdrop_order Demo.libs healthy_node
           (JStr Demo.address) (JNum 1%float) [] _ _ (surjective_pairing _)).
Defined.

(** X7 on the node whose faucet refuses. *)
Lemma post_api_wallet_airdrop_faucet_failure_witness :
  let run :=
    Index.post_api_wallet_airdrop refusing_faucet_node (JStr Demo.address)
      (JNum 1%float) [] in
  let lamports := js_mul (JNum 1%float) (JNum LAMPORTS_PER_SOL) in
  let e := new_Error "faucet is dry" in
  fst run = inr (answer_airdrop_failed "faucet is dry")
  /\ confirmations (snd run) = []
  /\ exists before,
       snd run = before ++ [ EvRequestAirdrop Demo.address lamports (inl e);
                             EvConsoleError "Airdrop error:" e ].
Proof.
  cbv zeta.
  apply (@post_api_wallet_airdrop_faucet_failure Demo.libs refusing_faucet_node
           (JStr Demo.address) (JNum 1%float) [] _ _ Demo.address
           (js_mul (JNum 1%float) (JNum LAMPORTS_PER_SOL))
           (new_Error "faucet is dry") (surjective_pairing _)).
  do 2 right. left. reflexivity.
Defined.

(** X8 on the node whose confirmation times out. *)
Lemma post_api_wallet_airdrop_confirmation_throws_witness :
  let run :=
    Index.post_api_wallet_airdrop timing_out_node (JStr Demo.address)
      (JNum 1%float) [] in
  let cause := "Transaction confirmation failed: timed out" in
  fst run = inr (answer_airdrop_failed cause)
  /\ (exists before,
        snd run = before ++ [ EvConfirmTransaction "signature" "confirmed"
                                (inl (new_Error "timed out"));
                              EvConsoleError "Airdrop error:" (new_Error cause) ])
  /\ ~ In (EvSetTimeout 2000) (snd run).
Proof.
  cbv zeta.
  apply (@post_api_wallet_airdrop_confirmation_throws Demo.libs timing_out_node
           (JStr Demo.address) (JNum 1%float) [] _ _ "signature" "confirmed"
           (new_Error "timed out") (surjective_pairing _)).
  do 3 right. left. reflexivity.
Defined.

(** X9 on the node that stops answering after the confirmation. *)
Lemma post_api_wallet_airdrop_after_confirmation_witness :
  let run :=
    Index.post_api_wallet_airdrop fading_node (JStr Demo.address) (JNum 1%float) [] in
  (exists signature confirmation,
     In (EvConfirmTransaction signature "confirmed" (inr confirmation)) (snd run)
     /\ ToBoolean (value_err confirmation) = false)
  /\ ((exists resp, fst run = inr resp /\ status resp = 200%Z)
      \/ (exists address es e before,
            List.length es = 4
            /\ fst run = inr (answer_airdrop_failed (message e))
            /\ snd run
               = before
                 ++ [EvSetTimeout 2000]
                 ++ failed_attempts address es
                 ++ [ EvGetBalance address "confirmed" (inl e);
                      EvConsoleError "Airdrop error:" e ])).
Proof.
  cbv zeta.
  apply (@post_api_wallet_airdrop_after_confirmation Demo.libs fading_node
           (JStr Demo.address) (JNum 1%float) [] _ _ (surjective_pairing _)).
  do 4 right. left. reflexivity.
Defined.

(** X10 on an empty query. *)
Lemma handleBalanceQuery_answers_witness :
  let query := JStr "" in
  let run := BalanceHandler.handleBalanceQuery asking_model query [] in
  exists resp,
    fst run = inr resp
    /\ (status resp = 200%Z \/ status resp = 400%Z \/ status resp = 500%Z)
    /\ ((ToBoolean query = false /\ resp = answer_missing_query /\ snd run = [])
        \/ (ToBoolean query = true
            /\ exists answer rest,
                 snd run
                 = EvModelInvoke (promptTemplate_format query) answer :: rest)).
Proof.
  cbv zeta.
  apply (@handleBalanceQuery_answers Demo.libs asking_model (JStr "") [] _ _
           (surjective_pairing _)).
Defined.

(** X11 on the model that cannot be reached. *)
Lemma handleBalanceQuery_model_failure_witness :
  let run :=
    BalanceHandler.handleBalanceQuery unreachable_model (JStr "My balance?") [] in
  let e := new_Error "model unreachable" in
  fst run = inr (answer_processing_failed "model unreachable")
  /\ snd run = [ EvModelInvoke "prompt" (inl e);
                 EvConsoleError "Natural language processing error:" e ].
Proof.
  cbv zeta.
  apply (@handleBalanceQuery_model_failure Demo.libs unreachable_model
           (JStr "My balance?") [] _ _ "prompt" (new_Error "model unreachable")
           (surjective_pairing _)).
  left. reflexivity.
Defined.

(** X12 on an address found in front of a dead node. *)
Lemma handleBalanceQuery_fetch_failed_witness :
  exists resp evs,
    BalanceHandler.handleBalanceQuery found_on_dead_node (JStr "My balance?") []
    = (inr resp, evs)
    /\ exists e before,
         resp = answer_balance_fetch_failed (message e)
         /\ console_reports evs = []
         /\ ((evs = before ++ [EvNewPublicKey (JStr Demo.address) (inl e)]
              /\ Forall (fun ev => is_rpc ev = false) evs)
             \/ (exists address es,
                   List.length es = 4
                   /\ evs = before
                            ++ [EvNewPublicKey (JStr Demo.address) (inr address)]
                            ++ failed_attempts address es
                            ++ [EvGetBalance address "confirmed" (inl e)])).
Proof.
  do 2 eexists. split; [reflexivity|].
  apply (@handleBalanceQuery_fetch_failed Demo.libs found_on_dead_node
           (JStr "My balance?") [] _ _ Demo.address eq_refl).
  - do 2 right. left. reflexivity.
  - discriminate.
Defined.

(** X13 on an address found in front of the healthy node. *)
Lemma handleBalanceQuery_success_witness :
  exists resp evs,
    BalanceHandler.handleBalanceQuery healthy_node (JStr "My balance?") []
    = (inr resp, evs)
    /\ (resp = answer_needs_address
        \/ (exists s address es balance before,
              isPotentiallySolanaAddress s = true
              /\ PublicKey_constructor (JStr s) = inr address
              /\ List.length es < 5
              /\ evs = before
                       ++ [ EvIsPotentiallySolanaAddress s true;
                            EvNewPublicKey (JStr s) (inr address) ]
                       ++ failed_attempts address es
                       ++ [EvGetBalance address "confirmed" (inr balance)]
              /\ resp = res_json
                          (JObj [ ("status", JStr "success");
                                  ("publicKey", JStr (PublicKey_toString address));
                                  ("balanceInLamports", JNum balance);
                                  ("balanceInSOL",
                                   JNum (balance / 1000000000)%float);
                                  ("message", JStr "Balance fetched successfully") ]))).
Proof.
  do 2 eexists. split; [reflexivity|].
  apply (@handleBalanceQuery_success Demo.libs healthy_node
           (JStr "My balance?") [] _ _ eq_refl eq_refl).
Defined.

(** X14 on the same run. *)
Lemma handleBalanceQuery_constructs_accepted_only_witness :
  let run :=
    BalanceHandler.handleBalanceQuery healthy_node (JStr "My balance?") [] in
  exists s,
    JStr Demo.address = JStr s
    /\ isPotentiallySolanaAddress s = true
    /\ In (EvIsPotentiallySolanaAddress s true) (snd run)
    /\ List.length (filter is_validation (snd run)) = 1.
Proof.
  cbv zeta.
  apply (@handleBalanceQuery_constructs_accepted_only Demo.libs healthy_node
           (JStr "My balance?") [] _ _ (JStr Demo.address) (inr Demo.address)
           (surjective_pairing _)).
  do 3 right. left. reflexivity.
Defined.

(** X16 on an input of two spaces and on a typed query. *)
Lemma handleSubmit_blank_input_witness :
  let post := fun _ : string => inr (body answer_needs_address) in
  let blank := WalletChat.handleChange "  " WalletChat.initial_state in
  let typed := WalletChat.handleChange " My balance?" WalletChat.initial_state in
  WalletChat.handleSubmit post blank = (blank, [])
  /\ snd (WalletChat.handleSubmit post typed) = [" My balance?"].
Proof.
  cbv zeta. split.
  - apply (proj1 (@handleSubmit_blank_input demo_browser
                    (fun _ : string => inr (body answer_needs_address))
                    (WalletChat.handleChange "  " WalletChat.initial_state))).
    intros c [<-|[<-|[]]]; reflexivity.
  - apply (proj2 (@handleSubmit_blank_input demo_browser
                    (fun _ : string => inr (body answer_needs_address))
                    (WalletChat.handleChange " My balance?" WalletChat.initial_state))).
    exists "M"%char. split; [right; left; reflexivity | reflexivity].
Defined.

(** X19 on the model that asks for an address. *)
Lemma botMessage_of_server_answer_witness :
  let run :=
    BalanceHandler.handleBalanceQuery asking_model (JStr "My balance?") [] in
  exists resp,
    fst run = inr resp
    /\ ((resp = answer_needs_address
         /\ WalletChat.botMessage (body resp) = inr WalletChat.needs_address_text)
        \/ (exists address balance,
              status resp = 200%Z
              /\ In (EvGetBalance address "confirmed" (inr balance)) (snd run)
              /\ WalletChat.botMessage (body resp)
                 = inr ("The wallet "
                        ++ WalletChat.first_four (PublicKey_toString address) ++ "..."
                        ++ WalletChat.last_four (PublicKey_toString address)
                        ++ " has a balance of "
                        ++ WalletChat.formatBalance (JNum (balance / 1000000000)%float)
                        ++ " SOL")%string)
        \/ (exists text,
              (status resp = 400%Z \/ status resp = 500%Z)
              /\ WalletChat.get_property (body resp) "message" = inr (JStr text)
              /\ WalletChat.botMessage (body resp)
                 = inr ("Error: "
                        ++ (if (text =? "")%string then "Something went wrong"
                            else text))%string)).
Proof.
  cbv zeta.
  apply (@botMessage_of_server_answer Demo.libs demo_browser asking_model
           (JStr "My balance?") [] _ _ (surjective_pairing _)).
Defined.

(** X20 on one typed and submitted query. *)
Lemma posted_queries_reach_the_model_witness :
  let run :=
    BalanceHandler.handleBalanceQuery asking_model (JStr "My balance?") [] in
  fst run <> inr answer_missing_query
  /\ exists answer rest,
       snd run
       = EvModelInvoke (promptTemplate_format (JStr "My balance?")) answer :: rest.
Proof.
  cbv zeta.
  apply (@posted_queries_reach_the_model Demo.libs demo_browser asking_model
           (fun _ : string => inr (body answer_needs_address))
           [WalletChat.TypeInput "My balance?"; WalletChat.SubmitForm]
           WalletChat.initial_state "My balance?" [] _ _).
  - left. reflexivity.
  - apply surjective_pairing.
Defined.

End MoreWitnesses.
